(** * Voyage-AI travel planner: catalog lookup, selection parsing, budget
      allocation and the payment-mandate flow

    A shallow embedding of the pure logic of the backend
    ([app/services/mock_data.py], [app/services/hybrid_data.py],
    [app/agents/single_agent.py], [app/agents/multi_agent_orchestrator.py],
    [app/agents/strands_orchestrator.py], [app/agents/ap2_orchestrator.py])
    together with the properties the specification states about it.

    Conventions of the embedding.
    - A Python [float] is an IEEE-754 binary64 number: Rocq's primitive
      [float], whose operations round to nearest-even as CPython's do.
    - A Python [int] is a [Z]; an [int] that meets a [float] in an
      arithmetic operation is first converted ([float_of_Z]).
    - A Python [str] is a [string], read as the bytes of its UTF-8
      encoding: concatenation, [in], [==] and [split(",")] mean the same on
      the text and on its bytes. [str.lower] and [str.strip] follow the
      Unicode character database; they are parameters of the model
      ([Str.Unicode]), and the statements hold whatever they compute.
      Their restriction to ASCII text ([Str.ascii_text]) serves where a
      text is computed with.
    - A value that may be [None] is an [option].
    - A [dict] with string keys is a [gmap string _]; a [list] is a [list].
    - The text returned by the language model is an input of the functions
      that consume it; time stamps, random identifiers and the wording of
      log messages are left out.
    - One request is planned at a time. *)

From Stdlib Require Import Ascii String Floats ZArith Permutation Sorted.
From stdpp Require Import base option list strings gmap.

#[local] Set Warnings "-inexact-float".
#[local] Open Scope string_scope.
#[local] Open Scope Z_scope.

(** ** Python strings *)

Module Str.

(** [s.startswith(p)] *)
Fixpoint startswith (p s : string) : bool :=
  match p, s with
  | EmptyString, _ => true
  | String _ _, EmptyString => false
  | String a p', String b s' => Ascii.eqb a b && startswith p' s'
  end.

(** [needle in hay] *)
Fixpoint contains (needle hay : string) : bool :=
  startswith needle hay ||
  match hay with
  | EmptyString => false
  | String _ hay' => contains needle hay'
  end.

(** [s.split(sep)[0]] for a one-character separator: the text before the
    first occurrence of [sep], the whole of [s] when there is none. *)
Fixpoint split_head (sep : ascii) (s : string) : string :=
  match s with
  | EmptyString => EmptyString
  | String c s' => if Ascii.eqb c sep then EmptyString else String c (split_head sep s')
  end.

(** What the specification calls an occurrence: [needle] is a contiguous
    part of [hay]. *)
Definition occurs (needle hay : string) : Prop :=
  exists pre post, hay = pre +:+ needle +:+ post.

(** [x == s] for a value [x] that is a string or [None]. *)
Definition equals (x : option string) (s : string) : bool :=
  match x with
  | Some t => String.eqb t s
  | None => false
  end.

(** [s.lower()] and [s.strip()]. What they return depends on the Unicode
    tables of the interpreter (which letters are cased, which characters
    are white space, the context rule for the Greek final sigma); the
    model takes the two functions as given. *)
Class Unicode := {
  lower : string -> string;
  strip : string -> string
}.

(** *** ASCII text

    On a text of ASCII characters [str.lower] maps [A]-[Z] to [a]-[z] and
    [str.strip] removes the leading and trailing characters for which
    [str.isspace] holds. *)

(** [c.isupper()] for an ASCII character. *)
Definition is_upper (c : ascii) : bool :=
  ((65 <=? nat_of_ascii c) && (nat_of_ascii c <=? 90))%nat.

Definition lower_char (c : ascii) : ascii :=
  if is_upper c then ascii_of_nat (nat_of_ascii c + 32) else c.

Fixpoint ascii_lower (s : string) : string :=
  match s with
  | EmptyString => EmptyString
  | String c s' => String (lower_char c) (ascii_lower s')
  end.

(** An occurrence up to the case of the ASCII letters: some contiguous
    part of [hay] equals [needle] once both are folded. *)
Definition occurs_nocase (needle hay : string) : Prop :=
  exists pre mid post, hay = pre +:+ mid +:+ post /\ ascii_lower mid = ascii_lower needle.

(** [c.isspace()] for an ASCII character: tab, line feed, vertical tab,
    form feed, carriage return, the four separators 0x1c-0x1f and space. *)
Definition is_space (c : ascii) : bool :=
  let n := nat_of_ascii c in
  (((9 <=? n) && (n <=? 13)) || ((28 <=? n) && (n <=? 32)))%nat.

Fixpoint lstrip (s : string) : string :=
  match s with
  | EmptyString => EmptyString
  | String c s' => if is_space c then lstrip s' else s
  end.

(** Drops trailing white space: a character is kept when it is not a space
    or when something is kept after it. *)
Fixpoint rstrip (s : string) : string :=
  match s with
  | EmptyString => EmptyString
  | String c s' =>
      match rstrip s' with
      | EmptyString => if is_space c then EmptyString else String c EmptyString
      | r => String c r
      end
  end.

Definition ascii_strip (s : string) : string := rstrip (lstrip s).

Definition ascii_text : Unicode := {| lower := ascii_lower; strip := ascii_strip |}.

End Str.

(** ** Response models ([app/models/responses.py]) *)

Module FlightOption.
Record t := mk {
  airline : string;
  departure_time : string;
  arrival_time : string;
  duration : string;
  price : float;
  stops : Z
}.
End FlightOption.

Module HotelOption.
Record t := mk {
  name : string;
  location : string;
  price_per_night : float;
  total_price : float;
  rating : float;
  amenities : list string
}.
End HotelOption.

Module ActivityOption.
Record t := mk {
  name : string;
  description : string;
  cost : float;
  duration : string;
  category : string
}.
End ActivityOption.

(** ** Selection parser ([MultiAgentOrchestrator], helper methods) *)

Module Parser.
Section Parsers.
Context `{Str.Unicode}.

(** [_parse_flight_from_response]: the loop returns at the first flight
    whose lower-cased airline is in the lower-cased response; after the
    loop, [flights[0] if flights else None]. *)
Definition _parse_flight_from_response
    (response : string) (flights : list FlightOption.t) : option FlightOption.t :=
  let response_lower := Str.lower response in
  match List.find (fun flight =>
           Str.contains (Str.lower (FlightOption.airline flight)) response_lower) flights with
  | Some flight => Some flight
  | None => head flights
  end.

(** [_parse_hotel_from_response] *)
Definition _parse_hotel_from_response
    (response : string) (hotels : list HotelOption.t) : option HotelOption.t :=
  let response_lower := Str.lower response in
  match List.find (fun hotel =>
           Str.contains (Str.lower (HotelOption.name hotel)) response_lower) hotels with
  | Some hotel => Some hotel
  | None => head hotels
  end.

(** The [for activity in activities] loop of
    [_parse_activities_from_response], with its accumulator [selected] and
    its [break]. *)
Fixpoint activities_loop (response_lower : string)
    (activities selected : list ActivityOption.t) : list ActivityOption.t :=
  match activities with
  | [] => selected
  | activity :: rest =>
      if Str.contains (Str.lower (ActivityOption.name activity)) response_lower then
        let selected := (selected ++ [activity])%list in
        if (6 <=? List.length selected)%nat then selected
        else activities_loop response_lower rest selected
      else activities_loop response_lower rest selected
  end.

(** [_parse_activities_from_response]:
    [return selected if selected else activities[:6]]. *)
Definition _parse_activities_from_response
    (response : string) (activities : list ActivityOption.t) : list ActivityOption.t :=
  let selected := activities_loop (Str.lower response) activities [] in
  match selected with
  | [] => take 6 activities
  | _ => selected
  end.

End Parsers.
End Parser.

(** ** Numbers *)

(** The conversion Python applies to an [int] operand of a float
    operation: the nearest binary64 number. (Python raises [OverflowError]
    on an [int] beyond the binary64 range; the days and travelers of a
    validated request are far below it.) *)
Definition float_of_Z (z : Z) : float :=
  SF2Prim (binary_normalize prec emax z 0 false).

(** [sum(xs)] over floats: Python starts from the integer 0 and adds from
    the left. *)
Definition sum (xs : list float) : float :=
  fold_left PrimFloat.add xs (float_of_Z 0).

(** [l[:n]] for a Python integer [n]: a negative [n] counts from the end. *)
Definition slice_to {A : Type} (n : Z) (l : list A) : list A :=
  if n <? 0 then take (List.length l - Z.to_nat (- n)) l
  else take (Z.to_nat n) l.

(** [sorted(l, key=key, reverse=reverse)]: a stable sort that compares keys
    with [<] only; with [reverse] the order is descending and items with
    equal keys still keep their original order. *)
Section Sorted.
Context {A : Type} (key : A -> float) (reverse : bool).

(** [goes_before k1 k2]: an item with key [k1] must precede one with key
    [k2] whatever their original order. *)
Definition goes_before (k1 k2 : float) : bool :=
  if reverse then PrimFloat.ltb k2 k1 else PrimFloat.ltb k1 k2.

Fixpoint insert_sorted (x : A) (l : list A) : list A :=
  match l with
  | [] => [x]
  | y :: l' =>
      if goes_before (key y) (key x) then y :: insert_sorted x l'
      else x :: y :: l'
  end.

Definition sorted (l : list A) : list A := foldr insert_sorted [] l.
End Sorted.

(** ** The static catalog ([app/services/mock_data.py]) *)

Module mock_data.

Definition tokyo_flights : list FlightOption.t :=
  [ FlightOption.mk "Japan Airlines" "2025-02-01 10:00" "2025-02-01 14:30" "11h 30m" 650.00 0;
    FlightOption.mk "ANA" "2025-02-01 14:00" "2025-02-01 18:00" "10h 00m" 720.00 0;
    FlightOption.mk "United Airlines" "2025-02-01 08:00" "2025-02-01 15:00" "13h 00m" 580.00 1;
    FlightOption.mk "Premium Business Class - ANA" "2025-02-01 09:00" "2025-02-01 13:00"
      "10h 00m" 1250.00 0 ].

Definition paris_flights : list FlightOption.t :=
  [ FlightOption.mk "Air France" "2025-02-01 18:00" "2025-02-02 08:00" "8h 00m" 450.00 0 ].

Definition london_flights : list FlightOption.t :=
  [ FlightOption.mk "British Airways" "2025-02-01 16:00" "2025-02-02 06:00" "7h 00m" 380.00 0 ].

Definition MOCK_FLIGHTS : gmap string (list FlightOption.t) :=
  <["tokyo" := tokyo_flights]> (<["paris" := paris_flights]> (<["london" := london_flights]> ∅)).

Definition tokyo_hotels : list HotelOption.t :=
  [ HotelOption.mk "Shibuya Grand Hotel" "Shibuya, Tokyo" 120.00 0 4.2
      ["WiFi"; "Breakfast"; "Gym"; "City View"];
    HotelOption.mk "Shinjuku Budget Inn" "Shinjuku, Tokyo" 85.00 0 3.8
      ["WiFi"; "24/7 Desk"];
    HotelOption.mk "Tokyo Luxury Suites" "Ginza, Tokyo" 250.00 0 4.8
      ["WiFi"; "Breakfast"; "Spa"; "Pool"; "Concierge"];
    HotelOption.mk "Asakusa Traditional Ryokan" "Asakusa, Tokyo" 150.00 0 4.5
      ["WiFi"; "Traditional Breakfast"; "Onsen"; "Tea Ceremony"];
    HotelOption.mk "Imperial Suite - Ritz-Carlton Tokyo" "Roppongi, Tokyo" 450.00 0 5.0
      ["WiFi"; "Butler Service"; "Spa"; "Michelin Restaurant"; "Panoramic Views";
       "Private Lounge"] ].

Definition paris_hotels : list HotelOption.t :=
  [ HotelOption.mk "Eiffel View Hotel" "7th Arrondissement, Paris" 180.00 0 4.5
      ["WiFi"; "Breakfast"; "Eiffel Tower View"] ].

Definition london_hotels : list HotelOption.t :=
  [ HotelOption.mk "Westminster Inn" "Westminster, London" 150.00 0 4.3
      ["WiFi"; "Breakfast"; "Central Location"] ].

Definition MOCK_HOTELS : gmap string (list HotelOption.t) :=
  <["tokyo" := tokyo_hotels]> (<["paris" := paris_hotels]> (<["london" := london_hotels]> ∅)).

Definition tokyo_activities : gmap string (list ActivityOption.t) :=
  <["tech" :=
      [ ActivityOption.mk "Akihabara Tech District Tour"
          "Explore Tokyo's electronics and anime paradise" 30.00 "3 hours" "tech";
        ActivityOption.mk "TeamLab Borderless Digital Art Museum"
          "Immersive digital art experience" 35.00 "2 hours" "tech";
        ActivityOption.mk "Sony ExploraScience"
          "Interactive technology exhibition" 25.00 "2 hours" "tech" ]]>
  (<["food" :=
      [ ActivityOption.mk "Tsukiji Outer Market Food Tour"
          "Fresh sushi and street food experience" 50.00 "3 hours" "food";
        ActivityOption.mk "Ramen Making Class"
          "Learn to make authentic Japanese ramen" 65.00 "2.5 hours" "food";
        ActivityOption.mk "Sushi Masterclass at Toyosu Market"
          "Professional sushi making experience" 80.00 "3 hours" "food";
        ActivityOption.mk "Private Michelin Star Chef Experience"
          "Exclusive dining with 3-star Michelin chef" 250.00 "4 hours" "food" ]]>
  (<["temples" :=
      [ ActivityOption.mk "Senso-ji Temple Visit"
          "Tokyo's oldest Buddhist temple in Asakusa" 0.00 "2 hours" "temples";
        ActivityOption.mk "Meiji Shrine Experience"
          "Peaceful Shinto shrine in forest setting" 0.00 "1.5 hours" "temples";
        ActivityOption.mk "Guided Temple Tour (Senso-ji + Meiji + Yasukuni)"
          "Comprehensive temple tour with expert guide" 45.00 "5 hours" "temples" ]]>
  (<["nature" :=
      [ ActivityOption.mk "Mount Fuji Day Trip"
          "Scenic tour to Japan's iconic mountain" 120.00 "10 hours" "nature";
        ActivityOption.mk "Shinjuku Gyoen National Garden"
          "Beautiful traditional Japanese garden" 5.00 "2 hours" "nature" ]]>
  (<["sightseeing" :=
      [ ActivityOption.mk "Tokyo Skytree Observation Deck"
          "Panoramic views from tallest tower" 28.00 "1.5 hours" "sightseeing";
        ActivityOption.mk "Shibuya Crossing & Harajuku Walking Tour"
          "Experience Tokyo's most vibrant districts" 20.00 "3 hours" "sightseeing";
        ActivityOption.mk "Imperial Palace East Gardens"
          "Historic palace grounds and gardens" 0.00 "2 hours" "sightseeing" ]]> ∅)))).

Definition paris_activities : gmap string (list ActivityOption.t) :=
  <["sightseeing" :=
      [ ActivityOption.mk "Eiffel Tower Visit" "Iconic Parisian landmark"
          30.00 "2 hours" "sightseeing" ]]> ∅.

Definition london_activities : gmap string (list ActivityOption.t) :=
  <["sightseeing" :=
      [ ActivityOption.mk "Big Ben & Westminster Abbey" "Historic London landmarks"
          25.00 "3 hours" "sightseeing" ]]> ∅.

Definition MOCK_ACTIVITIES : gmap string (gmap string (list ActivityOption.t)) :=
  <["tokyo" := tokyo_activities]>
    (<["paris" := paris_activities]> (<["london" := london_activities]> ∅)).

(** [d.get(key, d["tokyo"])]. The subscript [d["tokyo"]] is evaluated
    first and would raise [KeyError] on a dictionary without that key;
    the three catalogs have it ([tokyo_in_catalogs] below), so the total
    lookup [!!!] stands for it. *)
Definition get_or_tokyo {V : Type} `{Inhabited V} (d : gmap string V) (key : string) : V :=
  default (d !!! "tokyo") (d !! key).

(** [hotel.total_price = hotel.price_per_night * nights] *)
Definition with_total_price (nights : Z) (hotel : HotelOption.t) : HotelOption.t :=
  HotelOption.mk (HotelOption.name hotel) (HotelOption.location hotel)
    (HotelOption.price_per_night hotel)
    (HotelOption.price_per_night hotel * float_of_Z nights)
    (HotelOption.rating hotel) (HotelOption.amenities hotel).

Section Lookups.
Context `{Str.Unicode}.

(** [destination.lower().split(",")[0].strip()] *)
Definition dest_key (destination : string) : string :=
  Str.strip (Str.split_head "," (Str.lower destination)).

(** [budget_preference] is declared a [str]; the planners pass
    [request.hotel_preference], which may be [None]. *)
Definition get_flights (destination : string) (budget_preference : option string)
    : list FlightOption.t :=
  let dest_key := dest_key destination in
  let flights := get_or_tokyo MOCK_FLIGHTS dest_key in
  if Str.equals budget_preference "budget" then
    take 2 (sorted FlightOption.price false flights)
  else if Str.equals budget_preference "luxury" then
    take 2 (sorted FlightOption.price true flights)
  else flights.

(** The loop of [get_hotels] overwrites [total_price] in the catalog's own
    records, which are the objects it returns. The list is given here with
    the values it has when the call returns; a caller that reads
    [total_price] later sees them as long as no other call for the same
    city has run in between, which is the case when one request is planned
    at a time. *)
Definition get_hotels (destination : string) (nights : Z) (budget_preference : option string)
    : list HotelOption.t :=
  let dest_key := dest_key destination in
  let hotels := with_total_price nights <$> get_or_tokyo MOCK_HOTELS dest_key in
  if Str.equals budget_preference "budget" then
    take 2 (sorted HotelOption.price_per_night false hotels)
  else if Str.equals budget_preference "luxury" then
    take 2 (sorted HotelOption.price_per_night true hotels)
  else take 2 (drop 1 (sorted HotelOption.price_per_night false hotels)).

Definition get_activities (destination : string) (interests : list string) (max_count : Z)
    : list ActivityOption.t :=
  let dest_key := dest_key destination in
  let activities_db := get_or_tokyo MOCK_ACTIVITIES dest_key in
  let selected_activities :=
    fold_left (fun selected interest =>
                 selected ++ take 2 (default [] (activities_db !! Str.lower interest)))%list
              interests [] in
  slice_to max_count selected_activities.

End Lookups.

Definition daily_rates : gmap string float :=
  <["budget" := 30.00%float]> (<["mid-range" := 60.00%float]> (<["luxury" := 120.00%float]> ∅)).

(** [daily_rates.get(budget_level, 60.00)]: [None] is no key of the
    dictionary. *)
Definition calculate_daily_food_budget (duration_days : Z) (budget_level : option string)
    : float :=
  let daily_rate := default 60.00%float (budget_level ≫= (fun level => daily_rates !! level)) in
  (daily_rate * float_of_Z duration_days)%float.

Definition calculate_misc_costs (duration_days : Z) : float :=
  (float_of_Z duration_days * 25.00)%float.

End mock_data.

(** ** The hybrid data service ([app/services/hybrid_data.py])

    The service holds [cached_data], the content of a JSON snapshot read
    once at start-up, or [None] when the file is missing or unreadable.
    The snapshot is an input here. Its entries are taken after the
    conversion the lookups apply to them (a missing field replaced by its
    default), except for the two hotel fields whose default depends on the
    call. *)

Module hybrid_data.

Module CachedHotel.
Record t := mk {
  name : string;
  location : option string;
  chain_code : string
}.
End CachedHotel.

Module CachedCity.
Record t := mk {
  flights : list FlightOption.t;
  hotels : list CachedHotel.t;
  activities : list ActivityOption.t
}.
End CachedCity.

(** [cached_data['destinations']], when there is a snapshot. *)
Definition cached_data_t : Type := option (gmap string CachedCity.t).

Definition premium_chains : list string := ["HY"; "IH"; "MC"; "RT"; "SH"; "WI"].

Definition _estimate_hotel_price (chain_code : string) (preference : option string) : float :=
  let premium := bool_decide (chain_code ∈ premium_chains) in
  if Str.equals preference "luxury" then (if premium then 300.0 else 250.0)%float
  else if Str.equals preference "budget" then (if negb premium then 80.0 else 120.0)%float
  else (if premium then 150.0 else 120.0)%float.

Definition _get_amenities_for_tier (preference : option string) : list string :=
  if Str.equals preference "luxury" then
    ["WiFi"; "Breakfast"; "Spa"; "Pool"; "Concierge"; "Room Service"]
  else if Str.equals preference "budget" then ["WiFi"; "24/7 Desk"]
  else ["WiFi"; "Breakfast"; "Gym"; "Business Center"].

(** [city_key in cached_data['destinations']], with the entry found. *)
Definition cached_city (cached_data : cached_data_t) (city_key : string)
    : option CachedCity.t :=
  cached_data ≫= (fun destinations => destinations !! city_key).

Section Service.
Context `{Str.Unicode}.
Variable cached_data : cached_data_t.

Definition get_flights (destination : string) (preference : option string)
    : list FlightOption.t :=
  let city_key := mock_data.dest_key destination in
  match CachedCity.flights <$> cached_city cached_data city_key with
  | Some ((_ :: _) as flights) =>
      if Str.equals preference "luxury" then
        List.filter (fun f => PrimFloat.ltb 1000 (FlightOption.price f)) flights
      else if Str.equals preference "budget" then
        take 3 (sorted FlightOption.price false flights)
      else flights
  | _ => mock_data.get_flights destination preference
  end.

Definition get_hotels (destination : string) (duration_days : Z) (preference : option string)
    : list HotelOption.t :=
  let city_key := mock_data.dest_key destination in
  match CachedCity.hotels <$> cached_city cached_data city_key with
  | Some ((_ :: _) as real_hotels) =>
      let hotels :=
        (fun hotel =>
           let base_price :=
             _estimate_hotel_price (CachedHotel.chain_code hotel) preference in
           HotelOption.mk (CachedHotel.name hotel)
             (default destination (CachedHotel.location hotel))
             base_price (base_price * float_of_Z duration_days) 4.0
             (_get_amenities_for_tier preference)) <$> real_hotels in
      if Str.equals preference "budget" then
        take 3 (sorted HotelOption.price_per_night false hotels)
      else if Str.equals preference "luxury" then
        take 3 (sorted HotelOption.price_per_night true hotels)
      else take 3 (drop 2 (sorted HotelOption.price_per_night false hotels))
  | _ => mock_data.get_hotels destination duration_days preference
  end.

Definition get_activities (destination : string) (interests : list string) (max_count : Z)
    : list ActivityOption.t :=
  let city_key := mock_data.dest_key destination in
  match CachedCity.activities <$> cached_city cached_data city_key with
  | Some ((_ :: _) as real_activities) => slice_to max_count real_activities
  | _ => mock_data.get_activities destination interests max_count
  end.

End Service.

Definition calculate_daily_food_budget := mock_data.calculate_daily_food_budget.
Definition calculate_misc_costs := mock_data.calculate_misc_costs.

End hybrid_data.

(** ** Budget arithmetic

    The budget blocks of the planners are straight-line binary64
    arithmetic. *)

Module Costs.
(** The five entries of [cost_breakdown] with the total and the flag
    computed next to them. *)
Record t := mk {
  flights : float;
  accommodation : float;
  activities : float;
  food : float;
  misc : float;
  total_cost : float;
  within_budget : bool
}.
End Costs.

Section Budget.
#[local] Open Scope float_scope.

(** [remaining = total_budget - (flight_cost + hotel_cost + activities_cost)] *)
Definition remaining_of (total_budget flight_cost hotel_cost activities_cost : float) : float :=
  total_budget - (flight_cost + hotel_cost + activities_cost).

(** [MultiAgentOrchestrator.plan_trip], step 4:
    [food_cost = remaining * 0.60 if remaining > 0 else request.budget * 0.15],
    [misc_cost = remaining * 0.40 if remaining > 0 else request.budget * 0.10],
    then the total and [total_cost <= request.budget]. *)
Definition plan_trip_budget (budget flight_cost hotel_cost activities_cost : float) : Costs.t :=
  let remaining := remaining_of budget flight_cost hotel_cost activities_cost in
  let food_cost := if PrimFloat.ltb 0 remaining then remaining * 0.60 else budget * 0.15 in
  let misc_cost := if PrimFloat.ltb 0 remaining then remaining * 0.40 else budget * 0.10 in
  let total_cost := flight_cost + hotel_cost + activities_cost + food_cost + misc_cost in
  Costs.mk flight_cost hotel_cost activities_cost food_cost misc_cost total_cost
    (PrimFloat.leb total_cost budget).

(** The block shared, word for word, by the tool [calculate_budget_breakdown],
    [StrandsOrchestrator.plan_trip_stream] and
    [MultiAgentOrchestrator.plan_trip_stream]:
    [food_cost = remaining * 0.60], [misc_cost = remaining * 0.40] with no
    test on [remaining]. *)
Definition calculate_budget_breakdown
    (total_budget flight_cost hotel_cost activities_cost : float) : Costs.t :=
  let remaining := remaining_of total_budget flight_cost hotel_cost activities_cost in
  let food_cost := remaining * 0.60 in
  let misc_cost := remaining * 0.40 in
  let total_cost := flight_cost + hotel_cost + activities_cost + food_cost + misc_cost in
  let within_budget := PrimFloat.leb total_cost total_budget in
  Costs.mk flight_cost hotel_cost activities_cost food_cost misc_cost total_cost within_budget.

(** [SingleTravelAgent._parse_agent_response]: food and misc come from the
    two daily-rate helpers, whatever is left of the budget. *)
Definition single_agent_budget
    (budget flight_cost hotel_cost activities_cost food_cost misc_cost : float) : Costs.t :=
  let total_cost := flight_cost + hotel_cost + activities_cost + food_cost + misc_cost in
  Costs.mk flight_cost hotel_cost activities_cost food_cost misc_cost total_cost
    (PrimFloat.leb total_cost budget).

End Budget.

(** ** Requests and responses *)

Module TravelRequest.
(** [TravelRequest] with the fields the planners read; the validation
    bounds of the request model are [valid] below. The two preferences
    are declared [Optional[str]]: a request may carry [None]. *)
Record t := mk {
  destination : string;
  duration_days : Z;
  budget : float;
  travelers : Z;
  interests : option (list string);
  hotel_preference : option string;
  activity_level : option string
}.

(** [ge=1, le=30], [gt=0], [ge=1, le=10] *)
Definition valid (r : t) : Prop :=
  1 <= duration_days r <= 30 /\ PrimFloat.ltb 0 (budget r) = true /\ 1 <= travelers r <= 10.

(** [request.interests or [fallback]] *)
Definition interests_or (r : t) (fallback : string) : list string :=
  match interests r with
  | Some ((_ :: _) as l) => l
  | _ => [fallback]
  end.
End TravelRequest.

Module MultiAgentRequest.
(** [MultiAgentRequest(TravelRequest)]: the travel request and
    [enable_logging]. *)
Record t := mk {
  travel : TravelRequest.t;
  enable_logging : bool
}.
End MultiAgentRequest.

Inductive AgentStatus := SUCCESS | FAILURE | PARTIAL | ERROR.

Module TravelItinerary.
Record t := mk {
  destination : string;
  duration_days : Z;
  total_budget : float;
  actual_cost : float;
  within_budget : bool;
  flights : option FlightOption.t;
  hotel : option HotelOption.t;
  activities : list ActivityOption.t;
  cost_breakdown : gmap string float
}.
End TravelItinerary.

(** The dictionary literal every planner passes as [cost_breakdown]. *)
Definition cost_breakdown_of (c : Costs.t) : gmap string float :=
  <["flights" := Costs.flights c]> (<["accommodation" := Costs.accommodation c]>
  (<["activities" := Costs.activities c]> (<["food" := Costs.food c]>
  (<["misc" := Costs.misc c]> ∅)))).

(** The [TravelItinerary(...)] call that closes every planner. *)
Definition build_itinerary (request : TravelRequest.t) (c : Costs.t)
    (selected_flight : option FlightOption.t) (selected_hotel : option HotelOption.t)
    (activities : list ActivityOption.t) : TravelItinerary.t :=
  TravelItinerary.mk (TravelRequest.destination request) (TravelRequest.duration_days request)
    (TravelRequest.budget request) (Costs.total_cost c) (Costs.within_budget c)
    selected_flight selected_hotel activities (cost_breakdown_of c).

(** The three cost lines shared by every planner:
    [selected_flight.price * request.travelers if selected_flight else 0],
    [selected_hotel.total_price if selected_hotel else 0],
    [sum(a.cost for a in activities) * request.travelers]. *)
Definition flight_cost_of (selected_flight : option FlightOption.t) (travelers : Z) : float :=
  match selected_flight with
  | Some f => (FlightOption.price f * float_of_Z travelers)%float
  | None => float_of_Z 0
  end.

Definition hotel_cost_of (selected_hotel : option HotelOption.t) : float :=
  match selected_hotel with
  | Some h => HotelOption.total_price h
  | None => float_of_Z 0
  end.

Definition activities_cost_of (activities : list ActivityOption.t) (travelers : Z) : float :=
  (sum (ActivityOption.cost <$> activities) * float_of_Z travelers)%float.

(** What the user-facing lists [errors] and [warnings] hold. The messages
    are formatted text in the source; each is kept here as its kind with
    the numbers it prints. *)
Inductive message :=
  | Budget_exceeded (actual_cost total_budget : float)
  | No_suitable_flights
  | No_suitable_accommodation
  | No_activities_planned
  | Exception_text (e : string).

Module SingleAgentResponse.
Record t := mk {
  success : bool;
  status : AgentStatus;
  itinerary : option TravelItinerary.t;
  errors : list message;
  warnings : list message
}.
End SingleAgentResponse.

Module AgentLog.
(** What an entry of [agent_logs] says: the message is formatted text in
    the source; it is kept here as its kind with the values the entry
    prints or carries in [data]. [Budget_verdict] is the entry written
    after the budget coordinator answered: its text is the approval when
    [within_budget] holds and ["Over budget by"] the variance when it does
    not. *)
Inductive kind :=
  | Orchestration_started
  | Analyzing_flights (options_count : nat)
  | Selected_flight (airline : string) (cost : float)
  | Finding_accommodation (options_count : nat)
  | Selected_hotel (name : string) (cost : float)
  | Curating_experiences (options_count : nat)
  | Curated_activities (activities : list string)
  | Verifying_total_cost (total_cost budget : float)
  | Budget_verdict (total_cost : float) (within_budget : bool) (variance : float)
  | Collaboration_complete
  | Error_raised (e : string).

Record t := mk {
  agent_name : string;
  message : kind
}.
End AgentLog.

Module MultiAgentResponse.
(** [MultiAgentResponse] without the fields that do not depend on the
    plan: the headline [message], the clock, the names of the agents that
    answered and the number of log entries. *)
Record t := mk {
  success : bool;
  status : AgentStatus;
  itinerary : option TravelItinerary.t;
  agent_logs : list AgentLog.t
}.
End MultiAgentResponse.

(** The outcome of a call that may raise: the value, or the exception's
    text. *)
Definition result (A : Type) : Type := A + string.

(** [' '.join(parts)] and [s.split(sep)] for a one-character separator. *)
Fixpoint join (sep : string) (parts : list string) : string :=
  match parts with
  | [] => EmptyString
  | [p] => p
  | p :: rest => p +:+ sep +:+ join sep rest
  end.

Fixpoint split (sep : ascii) (s : string) : list string :=
  match s with
  | EmptyString => [EmptyString]
  | String c s' =>
      if Ascii.eqb c sep then EmptyString :: split sep s'
      else match split sep s' with
           | first :: others => String c first :: others
           | [] => [String c EmptyString]
           end
  end.

(** ** [MultiAgentOrchestrator], text handling *)

Module AgentText.

(** An entry of [response.output.content]: a dictionary, with or without a
    ['text'] key, or something that is not a dictionary. *)
Inductive item :=
  | Dict (text : option string)
  | Not_a_dict.

(** [_extract_response_text]; [content] is [None] when [response.output]
    has no [content] attribute or when it is not a list. *)
Definition _extract_response_text (content : option (list item)) : string :=
  match content with
  | Some items =>
      join " " (omap (fun it => match it with
                                | Dict text => Some (default EmptyString text)
                                | Not_a_dict => None
                                end) items)
  | None => EmptyString
  end.

(** [any(punct in text for punct in ['.', '!', '?', '\n'])] *)
Definition has_punct (text : string) : bool :=
  existsb (fun punct => Str.contains punct text)
    ["."; "!"; "?"; String (ascii_of_nat 10) EmptyString].

(** An event of the model's response stream: a [content_block_delta] chunk
    carrying text, or any other chunk. *)
Inductive chunk :=
  | Text_delta (text : string)
  | Other_chunk.

Section Stream.
Context `{Str.Unicode}.

(** The loop of [plan_trip_stream] over the response stream: the state is
    [response_text], [current_chunk] and the messages logged so far under
    the name of the supervisor. *)
Fixpoint reasoning_loop (body : list chunk) (response_text current_chunk : string)
    (logged : list string) : string * string * list string :=
  match body with
  | [] => (response_text, current_chunk, logged)
  | Other_chunk :: rest => reasoning_loop rest response_text current_chunk logged
  | Text_delta text :: rest =>
      let response_text := response_text +:+ text in
      let current_chunk := current_chunk +:+ text in
      if has_punct text then
        match Str.strip current_chunk with
        | EmptyString => reasoning_loop rest response_text current_chunk logged
        | message => reasoning_loop rest response_text EmptyString (logged ++ [message])%list
        end
      else reasoning_loop rest response_text current_chunk logged
  end.

(** The loop followed by [if current_chunk.strip(): yield ...]: the text
    handed to the parsers and the reasoning messages streamed. *)
Definition stream_reasoning (body : list chunk) : string * list string :=
  match reasoning_loop body EmptyString EmptyString [] with
  | (response_text, current_chunk, logged) =>
      (response_text,
       match Str.strip current_chunk with
       | EmptyString => logged
       | message => (logged ++ [message])%list
       end)
  end.

End Stream.
End AgentText.

(** ** The planners

    [cached_data] is the snapshot held by the process-wide data service. *)

Section Planners.
Context `{Str.Unicode}.
Variable cached_data : hybrid_data.cached_data_t.

#[local] Abbreviation get_flights := (hybrid_data.get_flights cached_data).
#[local] Abbreviation get_hotels := (hybrid_data.get_hotels cached_data).
#[local] Abbreviation get_activities := (hybrid_data.get_activities cached_data).

(** *** [SingleTravelAgent] ([app/agents/single_agent.py]) *)

(** [_parse_agent_response]; the model's answer is not read. *)
Definition _parse_agent_response (agent_response : string) (request : TravelRequest.t)
    : TravelItinerary.t :=
  let flights := get_flights (TravelRequest.destination request) (Some "luxury") in
  let selected_flight := head flights in
  let hotels := get_hotels (TravelRequest.destination request)
                  (TravelRequest.duration_days request)
                  (TravelRequest.hotel_preference request) in
  let selected_hotel := last hotels in
  let activities := get_activities (TravelRequest.destination request)
                      (TravelRequest.interests_or request "sightseeing") 10 in
  let flight_cost := flight_cost_of selected_flight (TravelRequest.travelers request) in
  let hotel_cost := hotel_cost_of selected_hotel in
  let activities_cost := activities_cost_of activities (TravelRequest.travelers request) in
  let food_cost := hybrid_data.calculate_daily_food_budget
                     (TravelRequest.duration_days request)
                     (TravelRequest.hotel_preference request) in
  let misc_cost := hybrid_data.calculate_misc_costs (TravelRequest.duration_days request) in
  build_itinerary request
    (single_agent_budget (TravelRequest.budget request)
       flight_cost hotel_cost activities_cost food_cost misc_cost)
    selected_flight selected_hotel (take 5 activities).

(** [SingleTravelAgent.plan_trip]; [bedrock] is the outcome of the single
    call to the model. *)
Definition single_plan_trip (bedrock : result string) (request : TravelRequest.t)
    : SingleAgentResponse.t :=
  match bedrock with
  | inr e => SingleAgentResponse.mk false ERROR None [Exception_text e] []
  | inl response =>
      let itinerary := _parse_agent_response response request in
      let exceeded_budget :=
        PrimFloat.ltb (TravelItinerary.total_budget itinerary)
                      (TravelItinerary.actual_cost itinerary) in
      let errors :=
        ((if exceeded_budget then
            [Budget_exceeded (TravelItinerary.actual_cost itinerary)
                             (TravelItinerary.total_budget itinerary)]
          else []) ++
         (match TravelItinerary.flights itinerary with Some _ => [] | None => [No_suitable_flights] end) ++
         (match TravelItinerary.hotel itinerary with
          | Some _ => []
          | None => [No_suitable_accommodation]
          end))%list in
      let warnings :=
        match TravelItinerary.activities itinerary with
        | [] => [No_activities_planned]
        | _ => []
        end in
      let status :=
        match errors, warnings with
        | _ :: _, _ => FAILURE
        | [], _ :: _ => PARTIAL
        | [], [] => SUCCESS
        end in
      SingleAgentResponse.mk true status (Some itinerary) errors warnings
  end.

(** *** [MultiAgentOrchestrator] ([app/agents/multi_agent_orchestrator.py]) *)

(** The outcomes of the four calls [plan_trip] makes to the router, in the
    order it makes them: the content of the specialist's answer, or the
    text of the exception the call raised. A call is made only when
    everything before it went through; the budget coordinator's answer is
    not read. *)
Record squad_answers := {
  flight_response : result (option (list AgentText.item));
  hotel_response : result (option (list AgentText.item));
  activity_response : result (option (list AgentText.item));
  budget_response : result unit
}.

(** The [except] branch of [plan_trip]: the entries logged so far, one
    more for the exception, and the error response, which carries them
    whether logging is enabled or not. *)
Definition plan_trip_failed (logs : list AgentLog.t) (e : string) : MultiAgentResponse.t :=
  MultiAgentResponse.mk false ERROR None
    (logs ++ [AgentLog.mk "Supervisor" (AgentLog.Error_raised e)])%list.

(** [plan_trip]. Besides the calls to the router, three places of the
    [try] block can raise: the log lines that read [selected_flight.airline]
    and [selected_hotel.name] when the selection is [None], and the budget
    prompt, which divides by [request.budget]. *)
Definition multi_plan_trip (answers : squad_answers) (multi_request : MultiAgentRequest.t)
    : MultiAgentResponse.t :=
  let request := MultiAgentRequest.travel multi_request in
  let flights := get_flights (TravelRequest.destination request) (Some "mid-range") in
  let hotels := get_hotels (TravelRequest.destination request)
                  (TravelRequest.duration_days request)
                  (TravelRequest.hotel_preference request) in
  let activities := get_activities (TravelRequest.destination request)
                      (TravelRequest.interests_or request "sightseeing") 10 in
  let logs :=
    [ AgentLog.mk "System" AgentLog.Orchestration_started;
      AgentLog.mk "FlightExpert" (AgentLog.Analyzing_flights (List.length flights)) ] in
  match flight_response answers with
  | inr e => plan_trip_failed logs e
  | inl flight_content =>
  let flight_response_text := AgentText._extract_response_text flight_content in
  match Parser._parse_flight_from_response flight_response_text flights with
  | None => plan_trip_failed logs "'NoneType' object has no attribute 'airline'"
  | Some flight =>
  let logs :=
    (logs ++
     [ AgentLog.mk "FlightExpert"
         (AgentLog.Selected_flight (FlightOption.airline flight)
            (FlightOption.price flight * float_of_Z (TravelRequest.travelers request)));
       AgentLog.mk "HotelExpert" (AgentLog.Finding_accommodation (List.length hotels)) ])%list in
  match hotel_response answers with
  | inr e => plan_trip_failed logs e
  | inl hotel_content =>
  let hotel_response_text := AgentText._extract_response_text hotel_content in
  match Parser._parse_hotel_from_response hotel_response_text hotels with
  | None => plan_trip_failed logs "'NoneType' object has no attribute 'name'"
  | Some hotel =>
  let logs :=
    (logs ++
     [ AgentLog.mk "HotelExpert"
         (AgentLog.Selected_hotel (HotelOption.name hotel) (HotelOption.total_price hotel));
       AgentLog.mk "ActivityExpert"
         (AgentLog.Curating_experiences (List.length activities)) ])%list in
  match activity_response answers with
  | inr e => plan_trip_failed logs e
  | inl activity_content =>
  let activity_response_text := AgentText._extract_response_text activity_content in
  let selected_activities :=
    Parser._parse_activities_from_response activity_response_text activities in
  let flight_cost := flight_cost_of (Some flight) (TravelRequest.travelers request) in
  let hotel_cost := hotel_cost_of (Some hotel) in
  let activities_cost :=
    activities_cost_of selected_activities (TravelRequest.travelers request) in
  let costs := plan_trip_budget (TravelRequest.budget request)
                 flight_cost hotel_cost activities_cost in
  let total_cost := Costs.total_cost costs in
  let logs :=
    (logs ++
     [ AgentLog.mk "ActivityExpert"
         (AgentLog.Curated_activities (ActivityOption.name <$> selected_activities));
       AgentLog.mk "BudgetCoordinator"
         (AgentLog.Verifying_total_cost total_cost (TravelRequest.budget request)) ])%list in
  if PrimFloat.eqb (TravelRequest.budget request) 0 then
    plan_trip_failed logs "float division by zero"
  else
  match budget_response answers with
  | inr e => plan_trip_failed logs e
  | inl _ =>
  let logs :=
    (logs ++
     [ AgentLog.mk "BudgetCoordinator"
         (AgentLog.Budget_verdict total_cost
            (PrimFloat.leb total_cost (TravelRequest.budget request))
            (total_cost - TravelRequest.budget request)%float);
       AgentLog.mk "System" AgentLog.Collaboration_complete ])%list in
  MultiAgentResponse.mk true SUCCESS
    (Some (build_itinerary request costs (Some flight) (Some hotel) selected_activities))
    (if MultiAgentRequest.enable_logging multi_request then logs else [])
  end end end end end end.

(** [plan_trip_stream]: the itinerary carried by the terminal [result]
    event, from the single streamed answer [response_text]. *)
Definition multi_plan_trip_stream (response_text : string) (request : TravelRequest.t)
    : TravelItinerary.t :=
  let flights := get_flights (TravelRequest.destination request)
                   (TravelRequest.hotel_preference request) in
  let hotels := get_hotels (TravelRequest.destination request)
                  (TravelRequest.duration_days request)
                  (TravelRequest.hotel_preference request) in
  let activities := get_activities (TravelRequest.destination request)
                      (TravelRequest.interests_or request "sightseeing") 10 in
  let selected_flight := Parser._parse_flight_from_response response_text flights in
  let selected_hotel := Parser._parse_hotel_from_response response_text hotels in
  let selected_activities := Parser._parse_activities_from_response response_text activities in
  let flight_cost := flight_cost_of selected_flight (TravelRequest.travelers request) in
  let hotel_cost := hotel_cost_of selected_hotel in
  let activities_cost :=
    activities_cost_of selected_activities (TravelRequest.travelers request) in
  build_itinerary request
    (calculate_budget_breakdown (TravelRequest.budget request)
       flight_cost hotel_cost activities_cost)
    selected_flight selected_hotel selected_activities.

(** *** [StrandsOrchestrator] ([app/agents/strands_orchestrator.py]) *)

(** [plan_trip_stream], step 6: the itinerary of the terminal [result]
    event. The coordinator's answer is not read. *)
Definition strands_plan_trip_stream (request : TravelRequest.t) : TravelItinerary.t :=
  let flights := get_flights (TravelRequest.destination request)
                   (TravelRequest.hotel_preference request) in
  let hotels := get_hotels (TravelRequest.destination request)
                  (TravelRequest.duration_days request)
                  (TravelRequest.hotel_preference request) in
  let activities := get_activities (TravelRequest.destination request)
                      (TravelRequest.interests_or request "sightseeing") 6 in
  let selected_flight := head flights in
  let selected_hotel := head hotels in
  let selected_activities := take 6 activities in
  let flight_cost := flight_cost_of selected_flight (TravelRequest.travelers request) in
  let hotel_cost := hotel_cost_of selected_hotel in
  let activities_cost :=
    activities_cost_of selected_activities (TravelRequest.travelers request) in
  build_itinerary request
    (calculate_budget_breakdown (TravelRequest.budget request)
       flight_cost hotel_cost activities_cost)
    selected_flight selected_hotel selected_activities.

End Planners.

(** ** The payment-mandate flow ([app/agents/ap2_orchestrator.py])

    The orchestrator object carries the wallet balance and the list of log
    entries waiting to be streamed; the streaming method is a generator.
    Both are threaded through a small monad: a computation takes the
    object, and gives back a value or the text of a raised exception, the
    object after it, and the events it yielded. Identifiers, time stamps and
    signatures are left out of the mandates. *)

Module AP2.

Inductive event :=
  | Log (agent_name : string)
  | Result (total_cost amount_paid wallet_balance : float)
  | Error (message : string).

Record orchestrator := {
  mock_wallet_balance : float;
  execution_logs : list event
}.

Definition M (A : Type) : Type := orchestrator -> result A * orchestrator * list event.

Definition ret {A} (a : A) : M A := fun self => (inl a, self, []).
Definition raise {A} (e : string) : M A := fun self => (inr e, self, []).
Definition bind {A B} (c : M A) (k : A -> M B) : M B :=
  fun self =>
    match c self with
    | (inl a, self', out) =>
        match k a self' with (r, self'', out') => (r, self'', (out ++ out')%list) end
    | (inr e, self', out) => (inr e, self', out)
    end.
(** [try: body except Exception as e: handler(e)] *)
Definition try_except {A} (body : M A) (handler : string -> M A) : M A :=
  fun self =>
    match body self with
    | (inr e, self', out) =>
        match handler e self' with (r, self'', out') => (r, self'', (out ++ out')%list) end
    | done => done
    end.

#[export] Instance M_ret : MRet M := @ret.
#[export] Instance M_bind : MBind M := fun A B k c => bind c k.

Definition yield (e : event) : M unit := fun self => (inl tt, self, [e]).
Definition get_balance : M float := fun self => (inl (mock_wallet_balance self), self, []).
Definition set_balance (b : float) : M unit :=
  fun self => (inl tt, {| mock_wallet_balance := b; execution_logs := execution_logs self |}, []).
Definition set_logs (l : list event) : M unit :=
  fun self => (inl tt, {| mock_wallet_balance := mock_wallet_balance self;
                          execution_logs := l |}, []).

(** [_log_event]: [self.execution_logs.append(log_entry)] *)
Definition _log_event (agent_name : string) : M unit :=
  fun self => (inl tt, {| mock_wallet_balance := mock_wallet_balance self;
                          execution_logs := (execution_logs self ++ [Log agent_name])%list |}, []).

(** [for log in self.execution_logs: yield log] then
    [self.execution_logs = []] *)
Definition flush : M unit :=
  fun self => (inl tt, {| mock_wallet_balance := mock_wallet_balance self;
                          execution_logs := [] |}, execution_logs self).

(** [x / n] for a float and an [int]: a zero divisor raises. *)
Definition py_div (x : float) (n : Z) : M float :=
  if n =? 0 then raise "float division by zero"
  else ret (x / float_of_Z n)%float.

(** [x.title()] for a value [x] that is a string or [None]: on [None] the
    attribute lookup raises. The title-cased text only goes into the name
    of a cart item, which is left out of [CartItem] below. *)
Definition py_title (x : option string) : M unit :=
  match x with
  | Some _ => ret tt
  | None => raise "'NoneType' object has no attribute 'title'"
  end.

Record IntentMandate := {
  items_to_purchase : nat;
  estimated_total : float
}.

Record CartItem := {
  quantity : Z;
  unit_price : float;
  item_total_price : float;
  vendor : string
}.

Record CartMandate := {
  items : list CartItem;
  subtotal : float;
  taxes : float;
  fees : float;
  total : float
}.

Record PaymentMandate := {
  amount : float;
  currency : string;
  payment_method : string;
  status : string
}.

Record TransactionReceipt := {
  amount_paid : float;
  receipt_currency : string;
  receipt_status : string
}.

Definition _create_intent_mandate (request : TravelRequest.t) : M IntentMandate :=
  let intent := {| items_to_purchase := 3;
                   estimated_total := TravelRequest.budget request |} in
  _log_event "AP2 Intent Mandate";;
  mret intent.

(** [_build_cart_mandate]. The list of items is built in source order: the
    unit price of the flights, the name of the hotel item, the unit price
    of the hotel; each can raise. *)
Definition _build_cart_mandate (intent : IntentMandate) (request : TravelRequest.t)
    : M CartMandate :=
  let flight_price := (TravelRequest.budget request * 0.35)%float in
  let hotel_price := (TravelRequest.budget request * 0.30)%float in
  let activities_price := (TravelRequest.budget request * 0.20)%float in
  flight_unit ← py_div flight_price (TravelRequest.travelers request);
  py_title (TravelRequest.hotel_preference request);;
  hotel_unit ← py_div hotel_price (TravelRequest.duration_days request);
  let cart_items :=
    [ {| quantity := TravelRequest.travelers request; unit_price := flight_unit;
         item_total_price := flight_price; vendor := "GlobalAir" |};
      {| quantity := TravelRequest.duration_days request; unit_price := hotel_unit;
         item_total_price := hotel_price; vendor := "TravelStay" |};
      {| quantity := 1; unit_price := activities_price;
         item_total_price := activities_price; vendor := "LocalExperiences" |} ] in
  let subtotal := sum (item_total_price <$> cart_items) in
  let taxes := (subtotal * 0.08)%float in
  let fees := 25.00%float in
  let total := (subtotal + taxes + fees)%float in
  let cart := {| items := cart_items; subtotal := subtotal; taxes := taxes;
                 fees := fees; total := total |} in
  _log_event "AP2 Cart Mandate";;
  mret cart.

Definition _request_payment_authorization (cart : CartMandate) : M PaymentMandate :=
  balance ← get_balance;
  let authorized := PrimFloat.leb (total cart) balance in
  let mandate := {| amount := total cart; currency := "USD"; payment_method := "AP2_Wallet";
                    status := if authorized then "authorized" else "denied" |} in
  _log_event "AP2 Payment Mandate";;
  mret mandate.

Definition _execute_transaction (mandate : PaymentMandate) (cart : CartMandate)
    : M TransactionReceipt :=
  let receipt := {| amount_paid := amount mandate; receipt_currency := currency mandate;
                    receipt_status := "completed" |} in
  _log_event "AP2 Transaction";;
  balance ← get_balance;
  set_balance (balance - amount mandate)%float;;
  _log_event "AP2 Receipt";;
  mret receipt.

Definition plan_trip_with_ap2_stream (request : TravelRequest.t) : M unit :=
  set_logs [];;
  try_except
    (_log_event "AP2 Protocol";;
     flush;;
     intent ← _create_intent_mandate request;
     flush;;
     cart ← _build_cart_mandate intent request;
     flush;;
     mandate ← _request_payment_authorization cart;
     flush;;
     if negb (String.eqb (status mandate) "authorized") then
       yield (Error "Payment authorization denied: Insufficient funds")
     else
       receipt ← _execute_transaction mandate cart;
       flush;;
       balance ← get_balance;
       yield (Result (total cart) (amount_paid receipt) balance))
    (fun e => yield (Error ("AP2 orchestration error: " +:+ e))).

(** The events a run yields and the wallet balance it leaves. *)
Definition events_of (request : TravelRequest.t) (self : orchestrator) : list event :=
  (plan_trip_with_ap2_stream request self).2.

Definition balance_after (request : TravelRequest.t) (self : orchestrator) : float :=
  mock_wallet_balance (plan_trip_with_ap2_stream request self).1.2.

Definition is_terminal (e : event) : bool :=
  match e with Log _ => false | _ => true end.

End AP2.

(** ** [StrandsOrchestrator], complexity analysis and tools *)

Module Strands.

(** The entries of [reasons], each with the number it prints. *)
Inductive reason :=
  | Long_duration (days : Z)
  | Some_duration (days : Z)
  | Large_group (travelers : Z)
  | Some_travelers (travelers : Z)
  | Many_interests (count : Z)
  | Some_interests (count : Z)
  | Tight_budget.

Record complexity := {
  complexity_score : Z;
  strategy : string;
  tool_count : Z;
  description : string;
  reasons : list reason
}.

(** One [if ... elif ...] factor: what it adds to the score and to the
    reasons. *)
Definition factor (value high low : Z) (many some : Z -> reason) : Z * list reason :=
  if high <? value then (2, [many value])
  else if low <? value then (1, [some value])
  else (0, []).

(** [_analyze_trip_complexity] *)
Definition _analyze_trip_complexity (request : TravelRequest.t) : complexity :=
  let '(s1, r1) := factor (TravelRequest.duration_days request) 7 4 Long_duration Some_duration in
  let '(s2, r2) := factor (TravelRequest.travelers request) 4 2 Large_group Some_travelers in
  let interests_count := Z.of_nat (List.length (default [] (TravelRequest.interests request))) in
  let '(s3, r3) := factor interests_count 3 1 Many_interests Some_interests in
  let '(s4, r4) := if PrimFloat.ltb (TravelRequest.budget request) 2000
                   then (1, [Tight_budget]) else (0, []) in
  let complexity_score := 0 + s1 + s2 + s3 + s4 in
  let reasons := (r1 ++ r2 ++ r3 ++ r4)%list in
  if 5 <=? complexity_score then
    {| complexity_score := complexity_score; strategy := "swarm"; tool_count := 8;
       description := "Complex trip - deploying full toolset"; reasons := reasons |}
  else if 3 <=? complexity_score then
    {| complexity_score := complexity_score; strategy := "swarm"; tool_count := 6;
       description := "Moderate complexity - deploying comprehensive tools";
       reasons := reasons |}
  else
    {| complexity_score := complexity_score; strategy := "sequential"; tool_count := 4;
       description := "Simple trip - standard toolset"; reasons := reasons |}.

(** The tool [search_activities], up to the list it serialises:
    [interest_list = [i.strip() for i in interests.split(",")]] and the
    lookup of at most ten activities. *)
Definition search_activities `{Str.Unicode} (cached_data : hybrid_data.cached_data_t)
    (destination interests : string) : list ActivityOption.t :=
  let interest_list := Str.strip <$> split "," interests in
  hybrid_data.get_activities cached_data destination interest_list 10.

End Strands.

(** ** Vocabulary of the properties *)

(** A request used in the examples: Tokyo, one traveler, mid-range hotel,
    the default interest. *)
Definition tokyo_request (budget : float) (duration_days : Z) : TravelRequest.t :=
  TravelRequest.mk "Tokyo, Japan" duration_days budget 1 None (Some "mid-range")
    (Some "moderate").

(** Answers of the specialists used in the examples: each names one
    candidate of the Tokyo catalog. *)
Definition tokyo_answers : squad_answers :=
  {| flight_response := inl (Some [AgentText.Dict (Some "ANA, for its schedule.")]);
     hotel_response := inl (Some [AgentText.Dict (Some "Shibuya Grand Hotel")]);
     activity_response := inl (Some [AgentText.Dict (Some "Tokyo Skytree Observation Deck")]);
     budget_response := inl tt |}.

(** An itinerary a planner returns: the monolithic planner's, the
    specialist planner's (from [plan_trip] when it succeeds, or from
    [plan_trip_stream]), or the tool-based planner's. *)
Definition produced `{Str.Unicode} (cached_data : hybrid_data.cached_data_t)
    (it : TravelItinerary.t) : Prop :=
  (exists response request, it = _parse_agent_response cached_data response request)
  \/ (exists answers request,
        MultiAgentResponse.itinerary (multi_plan_trip cached_data answers request) = Some it)
  \/ (exists response_text request, it = multi_plan_trip_stream cached_data response_text request)
  \/ (exists request, it = strands_plan_trip_stream cached_data request).




(** The sense in which the parsers match a name without regard to case:
    the lower-cased name occurs in the lower-cased text. *)
Definition named_in `{Str.Unicode} (name text : string) : Prop :=
  Str.occurs (Str.lower name) (Str.lower text).

(** [before] is the part of [s] before its first comma: it has no comma,
    and [s] is [before] alone or [before], a comma and something more. *)
Definition before_first_comma (s before : string) : Prop :=
  ~ Str.occurs "," before /\ (s = before \/ exists rest, s = before +:+ "," +:+ rest).

(** The catalog key of [destination] is one of [keys]. *)
Definition dest_key_in `{Str.Unicode} (destination : string) (keys : list string) : Prop :=
  mock_data.dest_key destination ∈ keys.

(** In a list sorted by [key], [x] may be followed by [y]: [y] is not an
    item that had to go before [x]. *)
Definition may_follow {A : Type} (key : A -> float) (reverse : bool) (x y : A) : Prop :=
  goes_before reverse (key y) (key x) = false.

(** The parts put end to end, and a text without its ASCII white space. *)
Definition glued (parts : list string) : string := fold_right append EmptyString parts.

Fixpoint without_spaces (s : string) : string :=
  match s with
  | EmptyString => EmptyString
  | String c s' => if Str.is_space c then without_spaces s' else String c (without_spaces s')
  end.

(** The texts a response stream carries, in order. *)
Definition texts_of (body : list AgentText.chunk) : list string :=
  omap (fun c => match c with
                 | AgentText.Text_delta text => Some text
                 | AgentText.Other_chunk => None
                 end) body.

(** A message with something in it and no white space around it. *)
Definition trimmed `{Str.Unicode} (message : string) : Prop :=
  message <> EmptyString /\ Str.strip message = message.

(** The last message of a stream: the pending text, stripped, when
    something is left of it. *)
Definition rest_message `{Str.Unicode} (pending : string) : list string :=
  match Str.strip pending with
  | EmptyString => []
  | message => [message]
  end.

(** The total of a cost record is the left-to-right sum of its entries. *)
Definition adds_up (c : Costs.t) : Prop :=
  Costs.total_cost c
  = (Costs.flights c + Costs.accommodation c + Costs.activities c + Costs.food c
     + Costs.misc c)%float.

(** * Properties *)

(** ** Strings *)

Module StrFacts.
Import Str.

Lemma startswith_spec (p s : string) :
  startswith p s = true <-> exists post, s = p +:+ post.
Proof.
  revert s. induction p as [|a p IH]; intros s; simpl.
  - split; [intros _; now exists s | reflexivity].
  - destruct s as [|b s].
    + split; [discriminate | intros [post Hpost]; discriminate].
    + rewrite andb_true_iff, Ascii.eqb_eq, IH. split.
      * intros [-> [post ->]]. now exists post.
      * intros [post Hpost]. injection Hpost as -> ->. split; [reflexivity | now exists post].
Qed.

(** The test [needle in hay] finds the occurrences. *)
Lemma contains_spec (needle hay : string) :
  contains needle hay = true <-> occurs needle hay.
Proof.
  unfold occurs. induction hay as [|c hay IH].
  - simpl. rewrite orb_false_r, startswith_spec. split.
    + intros [post Hpost]. now exists EmptyString, post.
    + intros [pre [post Hpp]]. destruct pre; [now exists post | discriminate].
  - cbn [contains]. rewrite orb_true_iff, startswith_spec, IH. split.
    + intros [[post Hpost] | [pre [post Hpp]]].
      * now exists EmptyString, post.
      * exists (String c pre), post. simpl. now rewrite Hpp.
    + intros [pre [post Hpp]]. destruct pre as [|c' pre].
      * left. now exists post.
      * right. simpl in Hpp. injection Hpp as _ Hpp. now exists pre, post.
Qed.

Lemma append_cons (x : ascii) (a b : string) : String x a +:+ b = String x (a +:+ b).
Proof. reflexivity. Qed.

Lemma append_nil_r (s : string) : s +:+ EmptyString = s.
Proof. induction s as [|c s IH]; [reflexivity |]. now rewrite append_cons, IH. Qed.

Lemma append_assoc_string (a b c : string) : (a +:+ b) +:+ c = a +:+ (b +:+ c).
Proof.
  induction a as [|x a IH]; [reflexivity |].
  now rewrite !append_cons, IH.
Qed.

Lemma occurs_trans (a b c : string) : occurs a b -> occurs b c -> occurs a c.
Proof.
  intros (p1 & q1 & ->) (p2 & q2 & ->).
  exists (p2 +:+ p1), (q1 +:+ q2). now rewrite !append_assoc_string.
Qed.

(** The test the parsers run, whatever [str.lower] computes. *)
Lemma equals_true (x : option string) (s : string) : equals x s = true -> x = Some s.
Proof.
  destruct x as [t |]; [| discriminate]. cbn [equals].
  intros Heq. apply String.eqb_eq in Heq. now subst.
Qed.

Lemma contains_lower `{Unicode} (name text : string) :
  contains (lower name) (lower text) = true <-> named_in name text.
Proof. apply contains_spec. Qed.

Lemma not_named `{Unicode} (name text : string) :
  ~ named_in name text -> contains (lower name) (lower text) = false.
Proof.
  intros Hno. apply not_true_is_false. now rewrite contains_lower.
Qed.

(** *** ASCII text *)

Lemma lower_append (a b : string) : ascii_lower (a +:+ b) = ascii_lower a +:+ ascii_lower b.
Proof. induction a as [|x a IH]; simpl; [reflexivity | now rewrite IH]. Qed.

(** A split of the folded text comes from a split of the text. *)
Lemma lower_split (t a b : string) :
  ascii_lower t = a +:+ b ->
  exists t1 t2, t = t1 +:+ t2 /\ ascii_lower t1 = a /\ ascii_lower t2 = b.
Proof.
  revert t. induction a as [|x a IH]; intros t Ht.
  - now exists EmptyString, t.
  - destruct t as [|y t]; [discriminate |].
    simpl in Ht. injection Ht as Hx Ht.
    destruct (IH t Ht) as (t1 & t2 & -> & H1 & H2).
    exists (String y t1), t2. simpl. now rewrite Hx, H1.
Qed.

(** On ASCII text the parsers' match is the occurrence up to the case of
    the letters. *)
Lemma named_in_ascii (name text : string) :
  @named_in ascii_text name text <-> occurs_nocase name text.
Proof.
  unfold named_in, occurs, occurs_nocase. cbn [lower ascii_text]. split.
  - intros (pre' & post' & Hl).
    apply lower_split in Hl as (pre & rest & -> & Hpre & Hrest).
    apply lower_split in Hrest as (mid & post & -> & Hmid & Hpost).
    now exists pre, mid, post.
  - intros (pre & mid & post & -> & Hmid).
    exists (ascii_lower pre), (ascii_lower post). now rewrite !lower_append, Hmid.
Qed.

End StrFacts.

(** ** Selection parser *)

Module ParserFacts.
Import Str Parser StrFacts.

Section Find.
Context {A : Type} (p : A -> bool).

Lemma find_first (pre post : list A) (x : A) :
  (forall y, y ∈ pre -> p y = false) -> p x = true ->
  List.find p (pre ++ x :: post) = Some x.
Proof.
  intros Hpre Hx. induction pre as [|y pre IH]; simpl.
  - now rewrite Hx.
  - rewrite (Hpre y) by apply list_elem_of_here.
    apply IH. intros z Hz. apply Hpre. now apply list_elem_of_further.
Qed.

Lemma find_absent (l : list A) :
  (forall y, y ∈ l -> p y = false) -> List.find p l = None.
Proof.
  intros Hl. induction l as [|y l IH]; simpl; [reflexivity |].
  rewrite (Hl y) by apply list_elem_of_here.
  apply IH. intros z Hz. apply Hl. now apply list_elem_of_further.
Qed.
End Find.

Section Parsers.
Context `{Unicode}.

(** The loop keeps the matches in input order and stops at the sixth. *)
Lemma activities_loop_spec (response_lower : string) (activities selected : list ActivityOption.t) :
  (List.length selected < 6)%nat ->
  activities_loop response_lower activities selected =
  take 6 (selected ++ List.filter
            (fun a => contains (lower (ActivityOption.name a)) response_lower) activities).
Proof.
  revert selected. induction activities as [|a l IH]; intros selected Hlen;
    cbn [activities_loop List.filter].
  - rewrite app_nil_r. symmetry. apply take_ge. lia.
  - destruct (contains (lower (ActivityOption.name a)) response_lower).
    + rewrite (cons_middle a selected (List.filter _ l)), app_assoc.
      destruct (Nat.leb_spec 6 (List.length (selected ++ [a]))) as [Hfull | Hroom].
      * symmetry. apply take_app_length'.
        rewrite length_app in *. simpl in *. lia.
      * now apply IH.
    + now apply IH.
Qed.

(** C4. Single-selection parse, for flights by airline and for hotels by
    name, for every response text and every candidate list, whatever
    [str.lower] computes: the answer is the first candidate, in input
    order, whose lower-cased name occurs in the lower-cased response text;
    when no candidate's name does, it is the first candidate of the list;
    for an empty list it is absent. *)
Theorem single_selection_parse (response : string) :
  (forall (pre post : list FlightOption.t) (flight : FlightOption.t),
      (forall g, g ∈ pre -> ~ named_in (FlightOption.airline g) response) ->
      named_in (FlightOption.airline flight) response ->
      _parse_flight_from_response response (pre ++ flight :: post) = Some flight)
  /\ (forall flights : list FlightOption.t,
      (forall g, g ∈ flights -> ~ named_in (FlightOption.airline g) response) ->
      _parse_flight_from_response response flights = head flights)
  /\ _parse_flight_from_response response [] = None
  /\ (forall (pre post : list HotelOption.t) (hotel : HotelOption.t),
      (forall g, g ∈ pre -> ~ named_in (HotelOption.name g) response) ->
      named_in (HotelOption.name hotel) response ->
      _parse_hotel_from_response response (pre ++ hotel :: post) = Some hotel)
  /\ (forall hotels : list HotelOption.t,
      (forall g, g ∈ hotels -> ~ named_in (HotelOption.name g) response) ->
      _parse_hotel_from_response response hotels = head hotels)
  /\ _parse_hotel_from_response response [] = None.
Proof.
  unfold _parse_flight_from_response, _parse_hotel_from_response.
  repeat split.
  - intros pre post flight Hpre Hflight.
    rewrite find_first; [reflexivity | | now apply contains_lower].
    intros g Hg. now apply not_named, Hpre.
  - intros flights Hnone.
    rewrite find_absent; [reflexivity |].
    intros g Hg. now apply not_named, Hnone.
  - intros pre post hotel Hpre Hhotel.
    rewrite find_first; [reflexivity | | now apply contains_lower].
    intros g Hg. now apply not_named, Hpre.
  - intros hotels Hnone.
    rewrite find_absent; [reflexivity |].
    intros g Hg. now apply not_named, Hnone.
Qed.

(** C5. Multi-selection parse, for every response text and every candidate
    list, whatever [str.lower] computes: the answer is the first six, in
    input order, of the activities whose lower-cased name occurs in the
    lower-cased response text; when none does it is the first six
    activities of the input; an empty input gives an empty answer. *)
Theorem multi_selection_parse (response : string) (activities : list ActivityOption.t) :
  let named := fun a => contains (lower (ActivityOption.name a)) (lower response) in
  (forall a, named a = true <-> named_in (ActivityOption.name a) response)
  /\ _parse_activities_from_response response activities =
     match List.filter named activities with
     | [] => take 6 activities
     | matches => take 6 matches
     end
  /\ _parse_activities_from_response response [] = [].
Proof.
  intros named. split; [intros a; apply contains_lower |].
  split; [| reflexivity].
  unfold _parse_activities_from_response.
  rewrite activities_loop_spec by (simpl; lia). rewrite app_nil_l. fold named.
  destruct (List.filter named activities) as [|m ms]; reflexivity.
Qed.

End Parsers.
End ParserFacts.

Module ParserWitness.
Import Str Parser StrFacts ParserFacts.

#[local] Existing Instance ascii_text.

(** The answer "ANA is the best value" picks the second Tokyo flight. *)
Lemma single_selection_parse_witness :
  _parse_flight_from_response "ANA is the best value" mock_data.tokyo_flights
  = mock_data.tokyo_flights !! 1%nat.
Proof.
  unfold mock_data.tokyo_flights.
  apply (proj1 (single_selection_parse "ANA is the best value")
           [FlightOption.mk "Japan Airlines" "2025-02-01 10:00" "2025-02-01 14:30"
              "11h 30m" 650.00 0]).
  - intros g Hg. apply list_elem_of_singleton in Hg. subst g.
    rewrite <- contains_lower. vm_compute. discriminate.
  - apply contains_lower. vm_compute. reflexivity.
Defined.

End ParserWitness.

(** ** Binary64 comparisons *)

Module FloatFacts.

Lemma SFcompare_antisym (x y : spec_float) :
  SFcompare y x = option_map CompOpp (SFcompare x y).
Proof.
  destruct x as [sx | sx | | sx mx ex], y as [sy | sy | | sy my ey];
    try destruct sx; try destruct sy; try reflexivity; simpl;
    rewrite (Z.compare_antisym ey ex);
    destruct (ey ?= ex)%Z; simpl; try reflexivity;
    now rewrite ?CompOpp_involutive, Pos.compare_cont_antisym.
Qed.

(** [a == b] implies [a <= b]. *)
Lemma eqb_leb (a b : float) : PrimFloat.eqb a b = true -> PrimFloat.leb a b = true.
Proof.
  rewrite FloatAxioms.eqb_spec, FloatAxioms.leb_spec. unfold SFeqb, SFleb.
  now destruct (SFcompare (Prim2SF a) (Prim2SF b)) as [[]|].
Qed.

(** [b < a] excludes [a <= b]. *)
Lemma ltb_not_leb (a b : float) : PrimFloat.ltb b a = true -> PrimFloat.leb a b = false.
Proof.
  rewrite FloatAxioms.ltb_spec, FloatAxioms.leb_spec. unfold SFltb, SFleb.
  rewrite (SFcompare_antisym (Prim2SF b) (Prim2SF a)).
  now destruct (SFcompare (Prim2SF b) (Prim2SF a)) as [[]|].
Qed.

(** [a <= b] excludes [b < a]: the [else] branch of a test [b > a]. *)
Lemma leb_not_ltb (a b : float) : PrimFloat.leb a b = true -> PrimFloat.ltb b a = false.
Proof.
  rewrite FloatAxioms.ltb_spec, FloatAxioms.leb_spec. unfold SFltb, SFleb.
  rewrite (SFcompare_antisym (Prim2SF a) (Prim2SF b)).
  now destruct (SFcompare (Prim2SF a) (Prim2SF b)) as [[]|].
Qed.

End FloatFacts.

(** ** Budget allocation *)

Module BudgetFacts.
Import FloatFacts.

#[local] Open Scope float_scope.

Section Planners.
Context `{Str.Unicode}.

(** C2. With remaining <= 0 the monolithic planner takes food and misc from
    the two daily-rate helpers and the specialist planner's [plan_trip]
    falls back to 15 % and 10 % of the budget, for every input; the
    tool-based planner does not: on budget 1000 against 800 + 400 + 0 its
    block returns food = remaining * 0.60 = -120, not 1000 * 0.15 = 150,
    and misc = -80, not 100. *)
Theorem shortfall_policy_by_planner :
  (forall cached_data response request,
      let it := _parse_agent_response cached_data response request in
      TravelItinerary.cost_breakdown it !! "food" =
        Some (mock_data.calculate_daily_food_budget (TravelRequest.duration_days request)
                (TravelRequest.hotel_preference request))
      /\ TravelItinerary.cost_breakdown it !! "misc" =
        Some (mock_data.calculate_misc_costs (TravelRequest.duration_days request)))
  /\ (forall budget flight_cost hotel_cost activities_cost : float,
      PrimFloat.leb (remaining_of budget flight_cost hotel_cost activities_cost) 0 = true ->
      let c := plan_trip_budget budget flight_cost hotel_cost activities_cost in
      Costs.food c = budget * 0.15 /\ Costs.misc c = budget * 0.10)
  /\ (let c := calculate_budget_breakdown 1000 800 400 0 in
      PrimFloat.leb (remaining_of 1000 800 400 0) 0 = true
      /\ Costs.food c = -120 /\ (1000 * 0.15 = 150)
      /\ Costs.misc c = -80 /\ (1000 * 0.10 = 100)
      /\ PrimFloat.eqb (Costs.food c) (1000 * 0.15) = false
      /\ PrimFloat.eqb (Costs.misc c) (1000 * 0.10) = false).
Proof.
  split; [| split].
  - intros cached_data response request. split; reflexivity.
  - intros budget flight_cost hotel_cost activities_cost Hrem c. subst c.
    unfold plan_trip_budget. cbn [Costs.food Costs.misc].
    rewrite (leb_not_ltb _ _ Hrem). split; reflexivity.
  - vm_compute. repeat split; reflexivity.
Qed.

(** The itinerary [plan_trip] returns, when it returns one. *)
Lemma plan_trip_itinerary (cached_data : hybrid_data.cached_data_t) (answers : squad_answers)
    (request : MultiAgentRequest.t) (it : TravelItinerary.t) :
  MultiAgentResponse.itinerary (multi_plan_trip cached_data answers request) = Some it ->
  exists flight hotel activities,
    it = build_itinerary (MultiAgentRequest.travel request)
           (plan_trip_budget (TravelRequest.budget (MultiAgentRequest.travel request))
              (flight_cost_of (Some flight)
                 (TravelRequest.travelers (MultiAgentRequest.travel request)))
              (hotel_cost_of (Some hotel))
              (activities_cost_of activities
                 (TravelRequest.travelers (MultiAgentRequest.travel request))))
           (Some flight) (Some hotel) activities
    /\ PrimFloat.eqb (TravelRequest.budget (MultiAgentRequest.travel request)) 0 = false
    /\ MultiAgentResponse.status (multi_plan_trip cached_data answers request) = SUCCESS
    /\ MultiAgentResponse.success (multi_plan_trip cached_data answers request) = true
    /\ exists flights_count hotels_count activities_count,
         MultiAgentResponse.agent_logs (multi_plan_trip cached_data answers request)
         = if MultiAgentRequest.enable_logging request then
             [ AgentLog.mk "System" AgentLog.Orchestration_started;
               AgentLog.mk "FlightExpert" (AgentLog.Analyzing_flights flights_count);
               AgentLog.mk "FlightExpert"
                 (AgentLog.Selected_flight (FlightOption.airline flight)
                    (FlightOption.price flight
                     * float_of_Z (TravelRequest.travelers (MultiAgentRequest.travel request))));
               AgentLog.mk "HotelExpert" (AgentLog.Finding_accommodation hotels_count);
               AgentLog.mk "HotelExpert"
                 (AgentLog.Selected_hotel (HotelOption.name hotel)
                    (HotelOption.total_price hotel));
               AgentLog.mk "ActivityExpert" (AgentLog.Curating_experiences activities_count);
               AgentLog.mk "ActivityExpert"
                 (AgentLog.Curated_activities (ActivityOption.name <$> activities));
               AgentLog.mk "BudgetCoordinator"
                 (AgentLog.Verifying_total_cost (TravelItinerary.actual_cost it)
                    (TravelItinerary.total_budget it));
               AgentLog.mk "BudgetCoordinator"
                 (AgentLog.Budget_verdict (TravelItinerary.actual_cost it)
                    (TravelItinerary.within_budget it)
                    (TravelItinerary.actual_cost it - TravelItinerary.total_budget it));
               AgentLog.mk "System" AgentLog.Collaboration_complete ]
           else [].
Proof.
  unfold multi_plan_trip.
  destruct (flight_response answers) as [flight_content | e]; [| discriminate].
  destruct (Parser._parse_flight_from_response _ _) as [flight |]; [| discriminate].
  destruct (hotel_response answers) as [hotel_content | e]; [| discriminate].
  destruct (Parser._parse_hotel_from_response _ _) as [hotel |]; [| discriminate].
  destruct (activity_response answers) as [activity_content | e]; [| discriminate].
  destruct (PrimFloat.eqb _ 0) eqn:Hzero; [discriminate |].
  destruct (budget_response answers) as [[] | e]; [| discriminate].
  cbn [MultiAgentResponse.itinerary MultiAgentResponse.status MultiAgentResponse.success
       MultiAgentResponse.agent_logs].
  intros [= <-]. eexists flight, hotel, _. split; [reflexivity |].
  split; [reflexivity |]. split; [reflexivity |]. split; [reflexivity |].
  eexists _, _, _. reflexivity.
Qed.

(** C3. In every itinerary a planner returns, [within_budget] is the
    comparison [actual_cost <= total_budget]; the comparison is not strict:
    equal values give [true]. *)
Theorem within_budget_iff (cached_data : hybrid_data.cached_data_t) (it : TravelItinerary.t) :
  produced cached_data it ->
  TravelItinerary.within_budget it
    = PrimFloat.leb (TravelItinerary.actual_cost it) (TravelItinerary.total_budget it)
  /\ (PrimFloat.eqb (TravelItinerary.actual_cost it) (TravelItinerary.total_budget it) = true ->
      TravelItinerary.within_budget it = true).
Proof.
  intros Hit.
  assert (Hle : TravelItinerary.within_budget it
                = PrimFloat.leb (TravelItinerary.actual_cost it)
                                (TravelItinerary.total_budget it)).
  { destruct Hit as [(response & request & ->) | [(answers & request & Hsome)
                    | [(text & request & ->) | (request & ->)]]]; try reflexivity.
    apply plan_trip_itinerary in Hsome as (flight & hotel & activities & -> & _).
    reflexivity. }
  split; [exact Hle |].
  intros Heq. rewrite Hle. now apply eqb_leb.
Qed.

End Planners.

#[local] Existing Instance Str.ascii_text.

(** C1. A budget of 1000 against costs of 800 + 400 + 0 leaves
    remaining = -200. The unguarded 60/40 block (the budget tool, and the
    streaming paths of the tool-based and specialist planners) then
    returns food = -120 and misc = -80, both negative, and a total equal to
    the budget, so that [within_budget] is true; the same happens in a
    whole run of the tool-based planner (Tokyo, one night, budget 318).
    The guarded block of [plan_trip] returns 150 and 100 and
    [within_budget = false] on the same input. *)
Theorem shortfall_unguarded_split :
  let c := calculate_budget_breakdown 1000 800 400 0 in
  let it := strands_plan_trip_stream None (tokyo_request 318 1) in
  let g := plan_trip_budget 1000 800 400 0 in
  remaining_of 1000 800 400 0 = -200
  /\ Costs.food c = -120 /\ Costs.misc c = -80
  /\ PrimFloat.ltb (Costs.food c) 0 = true /\ PrimFloat.ltb (Costs.misc c) 0 = true
  /\ Costs.total_cost c = 1000 /\ Costs.within_budget c = true
  /\ TravelItinerary.cost_breakdown it !! "food" = Some (-300)
  /\ TravelItinerary.cost_breakdown it !! "misc" = Some (-200)
  /\ TravelItinerary.within_budget it = true
  /\ Costs.food g = 150 /\ Costs.misc g = 100 /\ Costs.within_budget g = false.
Proof. vm_compute. repeat split; reflexivity. Qed.

(** The tool-based planner's itinerary for Tokyo, one night, budget 318:
    the cost comes to 318 exactly and the flag is set. *)
Lemma within_budget_iff_witness :
  let it := strands_plan_trip_stream None (tokyo_request 318 1) in
  TravelItinerary.within_budget it
    = PrimFloat.leb (TravelItinerary.actual_cost it) (TravelItinerary.total_budget it)
  /\ (PrimFloat.eqb (TravelItinerary.actual_cost it) (TravelItinerary.total_budget it) = true ->
      TravelItinerary.within_budget it = true).
Proof.
  apply (within_budget_iff None).
  right; right; right. exists (tokyo_request 318 1). reflexivity.
Defined.

End BudgetFacts.

Module RoundedBudget.
Import FloatFacts.

#[local] Open Scope float_scope.

Section Planners.
Context `{Str.Unicode}.


End Planners.

#[local] Existing Instance Str.ascii_text.


End RoundedBudget.

(** ** Reporting of a budget overrun *)

Module OverrunFacts.
Import FloatFacts.

#[local] Open Scope list_scope.

Section Planners.
Context `{Str.Unicode}.

(** C8, amended. In the monolithic planner an overrun
    (actual_cost > total_budget) is reported as an error: the itinerary is
    returned with [within_budget = false], a budget-exceeded entry is in
    [errors], the status is [FAILURE] while [success] stays true, and the
    only warning there can be is the one about missing activities. In
    [plan_trip] of the specialist planner, whose response has no error or
    warning list, an overrun leaves the status [SUCCESS] and [success]
    true; it shows in the itinerary as [within_budget = false] and, when
    logging is enabled, in [agent_logs]: the budget coordinator's two
    entries carry the cost beside the budget and the verdict
    ["Over budget by"] with the variance actual_cost - total_budget; no
    other entry depends on the budget, and with logging disabled the list
    is empty. *)
Theorem overrun_reporting (cached_data : hybrid_data.cached_data_t) :
  (forall (response : string) (request : TravelRequest.t),
      let r := single_plan_trip cached_data (inl response) request in
      let it := _parse_agent_response cached_data response request in
      SingleAgentResponse.itinerary r = Some it
      /\ (PrimFloat.ltb (TravelItinerary.total_budget it) (TravelItinerary.actual_cost it) = true ->
          TravelItinerary.within_budget it = false
          /\ Budget_exceeded (TravelItinerary.actual_cost it) (TravelItinerary.total_budget it)
               ∈ SingleAgentResponse.errors r
          /\ SingleAgentResponse.status r = FAILURE
          /\ SingleAgentResponse.success r = true
          /\ (forall w, w ∈ SingleAgentResponse.warnings r -> w = No_activities_planned)))
  /\ (forall (answers : squad_answers) (request : MultiAgentRequest.t) (it : TravelItinerary.t),
      let r := multi_plan_trip cached_data answers request in
      MultiAgentResponse.itinerary r = Some it ->
      PrimFloat.ltb (TravelItinerary.total_budget it) (TravelItinerary.actual_cost it) = true ->
      TravelItinerary.within_budget it = false
      /\ MultiAgentResponse.status r = SUCCESS
      /\ MultiAgentResponse.success r = true
      /\ exists flights_count airline flight_cost hotels_count hotel hotel_cost
                activities_count activities,
           MultiAgentResponse.agent_logs r
           = if MultiAgentRequest.enable_logging request then
               [ AgentLog.mk "System" AgentLog.Orchestration_started;
                 AgentLog.mk "FlightExpert" (AgentLog.Analyzing_flights flights_count);
                 AgentLog.mk "FlightExpert" (AgentLog.Selected_flight airline flight_cost);
                 AgentLog.mk "HotelExpert" (AgentLog.Finding_accommodation hotels_count);
                 AgentLog.mk "HotelExpert" (AgentLog.Selected_hotel hotel hotel_cost);
                 AgentLog.mk "ActivityExpert" (AgentLog.Curating_experiences activities_count);
                 AgentLog.mk "ActivityExpert" (AgentLog.Curated_activities activities);
                 AgentLog.mk "BudgetCoordinator"
                   (AgentLog.Verifying_total_cost (TravelItinerary.actual_cost it)
                      (TravelItinerary.total_budget it));
                 AgentLog.mk "BudgetCoordinator"
                   (AgentLog.Budget_verdict (TravelItinerary.actual_cost it) false
                      (TravelItinerary.actual_cost it - TravelItinerary.total_budget it));
                 AgentLog.mk "System" AgentLog.Collaboration_complete ]
             else []).
Proof.
  split.
  - intros response request r it. split; [reflexivity |].
    intros Hover. subst r. unfold single_plan_trip. fold it.
    rewrite Hover. cbn [SingleAgentResponse.errors SingleAgentResponse.status
                        SingleAgentResponse.success SingleAgentResponse.warnings app].
    repeat split.
    + change (TravelItinerary.within_budget it)
        with (PrimFloat.leb (TravelItinerary.actual_cost it) (TravelItinerary.total_budget it)).
      now apply ltb_not_leb.
    + apply list_elem_of_here.
    + intros w Hw. destruct (TravelItinerary.activities it).
      * now apply list_elem_of_singleton in Hw.
      * now apply elem_of_nil in Hw.
  - intros answers request it r Hsome Hover. subst r.
    destruct (BudgetFacts.plan_trip_itinerary _ _ _ _ Hsome)
      as (flight & hotel & activities & Hit & _ & Hstatus & Hsuccess
          & flights_count & hotels_count & activities_count & Hlogs).
    assert (Hflag : TravelItinerary.within_budget it = false).
    { rewrite Hit in Hover |- *.
      change (TravelItinerary.within_budget (build_itinerary ?q ?c _ _ _))
        with (PrimFloat.leb (TravelItinerary.actual_cost (build_itinerary q c None None []))
                (TravelItinerary.total_budget (build_itinerary q c None None []))).
      now apply ltb_not_leb. }
    split; [exact Hflag |]. split; [exact Hstatus |]. split; [exact Hsuccess |].
    rewrite Hflag in Hlogs. eexists _, _, _, _, _, _, _, _. exact Hlogs.
Qed.

End Planners.

#[local] Existing Instance Str.ascii_text.

(** C8 as stated fails for the monolithic planner. Tokyo, two nights, budget
    100: the plan costs 1768, the overrun is the one entry of [errors],
    nothing is in [warnings], and the status is [FAILURE]. *)
Lemma overrun_is_an_error_in_single_agent :
  let r := single_plan_trip None (inl "") (tokyo_request 100 2) in
  (TravelItinerary.actual_cost <$> SingleAgentResponse.itinerary r) = Some 1768%float
  /\ (TravelItinerary.within_budget <$> SingleAgentResponse.itinerary r) = Some false
  /\ SingleAgentResponse.errors r = [Budget_exceeded 1768 100]
  /\ SingleAgentResponse.warnings r = []
  /\ SingleAgentResponse.status r = FAILURE.
Proof. vm_compute. repeat split; reflexivity. Qed.

(** The overrun of the Tokyo plan on a budget of 100, in the monolithic
    planner and in [plan_trip] of the specialist planner with logging
    enabled. *)
Lemma overrun_reporting_witness :
  let r := single_plan_trip None (inl "") (tokyo_request 100 2) in
  let it := _parse_agent_response None "" (tokyo_request 100 2) in
  let m := multi_plan_trip None tokyo_answers
             (MultiAgentRequest.mk (tokyo_request 100 2) true) in
  (TravelItinerary.within_budget it = false
   /\ Budget_exceeded (TravelItinerary.actual_cost it) (TravelItinerary.total_budget it)
        ∈ SingleAgentResponse.errors r
   /\ SingleAgentResponse.status r = FAILURE
   /\ SingleAgentResponse.success r = true
   /\ (forall w, w ∈ SingleAgentResponse.warnings r -> w = No_activities_planned))
  /\ (exists mit,
        MultiAgentResponse.itinerary m = Some mit
        /\ TravelItinerary.actual_cost mit = 1013%float
        /\ TravelItinerary.within_budget mit = false
        /\ MultiAgentResponse.status m = SUCCESS
        /\ AgentLog.mk "BudgetCoordinator" (AgentLog.Budget_verdict 1013 false 913)
             ∈ MultiAgentResponse.agent_logs m).
Proof.
  intros r it m. split.
  - apply (proj2 (proj1 (overrun_reporting None) "" (tokyo_request 100 2))).
    vm_compute. reflexivity.
  - subst m.
    eassert (Hsome : MultiAgentResponse.itinerary
                       (multi_plan_trip None tokyo_answers
                          (MultiAgentRequest.mk (tokyo_request 100 2) true)) = Some _)
      by (vm_compute; reflexivity).
    destruct (proj2 (overrun_reporting None) _ _ _ Hsome eq_refl)
      as (Hflag & Hstatus & _ & ? & ? & ? & ? & ? & ? & ? & ? & Hlogs).
    eexists. split; [exact Hsome |]. split; [reflexivity |].
    split; [exact Hflag |]. split; [exact Hstatus |].
    rewrite Hlogs. cbn [MultiAgentRequest.enable_logging].
    do 8 apply list_elem_of_further. apply list_elem_of_here.
Defined.

End OverrunFacts.

(** ** Payment mandate *)

Module MandateFacts.
Import AP2.

(** One step of a run: unfold the monad and the steps that only log. *)
Ltac run_steps :=
  repeat (unfold mbind, M_bind, bind, mret, M_ret, ret, _create_intent_mandate,
            _log_event, flush, set_logs, get_balance, yield;
          cbn -[_build_cart_mandate _request_payment_authorization]).

Lemma build_cart_inv (intent : IntentMandate) (request : TravelRequest.t)
    (s s' : orchestrator) (cart : CartMandate) (out : list event) :
  _build_cart_mandate intent request s = (inl cart, s', out) ->
  TravelRequest.travelers request <> 0 /\ TravelRequest.duration_days request <> 0
  /\ TravelRequest.hotel_preference request <> None
  /\ forall (intent' : IntentMandate) (t : orchestrator),
      _build_cart_mandate intent' request t
      = (inl cart, {| mock_wallet_balance := mock_wallet_balance t;
                      execution_logs := execution_logs t ++ [Log "AP2 Cart Mandate"] |}, []).
Proof.
  unfold _build_cart_mandate, py_div, py_title, mbind, M_bind, bind, mret, M_ret, ret, raise,
    _log_event.
  destruct (TravelRequest.travelers request =? 0) eqn:Ht; [discriminate |].
  destruct (TravelRequest.hotel_preference request) as [preference |]; [| discriminate].
  destruct (TravelRequest.duration_days request =? 0) eqn:Hd; [discriminate |].
  cbn. intros Hcart. injection Hcart as <- _ _.
  apply Z.eqb_neq in Ht, Hd. repeat split; try assumption. discriminate.
Qed.

(** C9. The payment mandate is ['authorized'] exactly when the cart total
    is at most the wallet balance. When it is not, the stream is the four
    log events of the steps run so far followed by one error event, which
    is its only terminal event; the transaction step contributes no event,
    and the wallet balance is what it was. *)
Theorem payment_authorization (self : orchestrator) :
  (forall cart : CartMandate,
      exists mandate self',
        _request_payment_authorization cart self = (inl mandate, self', [])
        /\ mock_wallet_balance self' = mock_wallet_balance self
        /\ amount mandate = total cart
        /\ (status mandate = "authorized"
            <-> PrimFloat.leb (total cart) (mock_wallet_balance self) = true))
  /\ (forall (request : TravelRequest.t) (intent : IntentMandate) (cart : CartMandate)
        (s s' : orchestrator) (out : list event),
      _build_cart_mandate intent request s = (inl cart, s', out) ->
      PrimFloat.leb (total cart) (mock_wallet_balance self) = false ->
      events_of request self
        = [Log "AP2 Protocol"; Log "AP2 Intent Mandate"; Log "AP2 Cart Mandate";
           Log "AP2 Payment Mandate";
           Error "Payment authorization denied: Insufficient funds"]
      /\ List.filter is_terminal (events_of request self)
        = [Error "Payment authorization denied: Insufficient funds"]
      /\ (Log "AP2 Transaction" ∉ events_of request self)
      /\ balance_after request self = mock_wallet_balance self).
Proof.
  split.
  - intros cart. eexists _, _. split; [reflexivity |].
    cbn. repeat split.
    + destruct (PrimFloat.leb (total cart) (mock_wallet_balance self)); [reflexivity | discriminate].
    + now intros ->.
  - intros request intent cart s s' out Hcart Hdenied.
    destruct (build_cart_inv _ _ _ _ _ _ Hcart) as (_ & _ & _ & Hbuild).
    assert (Hrun : plan_trip_with_ap2_stream request self
                   = (inl tt, {| mock_wallet_balance := mock_wallet_balance self;
                                 execution_logs := [] |},
                      [Log "AP2 Protocol"; Log "AP2 Intent Mandate"; Log "AP2 Cart Mandate";
                       Log "AP2 Payment Mandate";
                       Error "Payment authorization denied: Insufficient funds"])).
    { unfold plan_trip_with_ap2_stream, try_except.
      run_steps. rewrite Hbuild. run_steps.
      unfold _request_payment_authorization. run_steps.
      rewrite Hdenied. reflexivity. }
    unfold events_of, balance_after. rewrite Hrun. cbn.
    repeat split. intros Hin.
    rewrite !elem_of_cons, elem_of_nil in Hin.
    intuition discriminate.
Qed.

(** A trip of 100000 against a wallet of 10000: the cart comes to 91825. *)
Lemma payment_authorization_witness :
  let self := {| mock_wallet_balance := 10000; execution_logs := [] |} in
  let request := tokyo_request 100000 2 in
  events_of request self
    = [Log "AP2 Protocol"; Log "AP2 Intent Mandate"; Log "AP2 Cart Mandate";
       Log "AP2 Payment Mandate";
       Error "Payment authorization denied: Insufficient funds"]
  /\ List.filter is_terminal (events_of request self)
    = [Error "Payment authorization denied: Insufficient funds"]
  /\ (Log "AP2 Transaction" ∉ events_of request self)
  /\ balance_after request self = 10000%float.
Proof.
  intros self request.
  eapply (proj2 (payment_authorization self) request
            {| items_to_purchase := 3; estimated_total := 100000 |} _ self _ _).
  - reflexivity.
  - vm_compute. reflexivity.
Defined.

End MandateFacts.

(** ** Catalog lookup *)

Module CatalogFacts.
Import mock_data StrFacts.

#[local] Open Scope list_scope.

Section SortedFacts.
Context {A : Type} (key : A -> float) (reverse : bool).

Lemma insert_sorted_perm (x : A) (l : list A) : insert_sorted key reverse x l ≡ₚ x :: l.
Proof.
  induction l as [|y l IH]; simpl; [reflexivity |].
  destruct (goes_before reverse (key y) (key x)); [| reflexivity].
  rewrite IH. apply Permutation_swap.
Qed.

Lemma sorted_cons (x : A) (l : list A) :
  sorted key reverse (x :: l) = insert_sorted key reverse x (sorted key reverse l).
Proof. reflexivity. Qed.

(** Sorting rearranges, it neither drops nor adds. *)
Lemma sorted_perm (l : list A) : sorted key reverse l ≡ₚ l.
Proof.
  induction l as [|x l IH]; [reflexivity |].
  now rewrite sorted_cons, insert_sorted_perm, IH.
Qed.


End SortedFacts.

(** The text before the first comma, as [split] finds it. *)
Lemma no_comma_cons (c : ascii) (s : string) :
  ~ Str.occurs "," (String c s) <-> c <> ","%char /\ ~ Str.occurs "," s.
Proof.
  split.
  - intros Hno. split.
    + intros ->. apply Hno. now exists EmptyString, s.
    + intros (pre & post & ->). apply Hno. now exists (String c pre), post.
  - intros [Hc Hs] (pre & post & Heq). destruct pre as [|d pre].
    + injection Heq as -> _. now apply Hc.
    + injection Heq as _ ->. apply Hs. now exists pre, post.
Qed.

Lemma no_comma_nil : ~ Str.occurs "," EmptyString.
Proof. intros (pre & post & Heq). destruct pre; discriminate. Qed.

Lemma split_head_spec (s : string) : before_first_comma s (Str.split_head "," s).
Proof.
  induction s as [|c s [Hno Hs]]; [split; [apply no_comma_nil | now left] |].
  cbn [Str.split_head]. destruct (Ascii.eqb_spec c ",") as [-> | Hc].
  - split; [apply no_comma_nil |]. right. now exists s.
  - split; [now apply no_comma_cons |].
    destruct Hs as [Hs | [rest Hs]].
    + left. now rewrite <- Hs.
    + right. exists rest. now rewrite Hs at 1.
Qed.

Lemma split_head_unique (s before : string) :
  before_first_comma s before -> Str.split_head "," s = before.
Proof.
  intros [Hno Hs]. revert s Hs.
  induction before as [|c before IH]; intros s Hs.
  - destruct Hs as [-> | [rest ->]]; reflexivity.
  - apply no_comma_cons in Hno as [Hc Hno].
    assert (Hneq : Ascii.eqb c "," = false) by now apply Ascii.eqb_neq.
    destruct Hs as [-> | [rest ->]].
    + cbn [Str.split_head]. rewrite Hneq. f_equal. apply IH; [exact Hno | now left].
    + rewrite append_cons. cbn [Str.split_head]. rewrite Hneq. f_equal.
      apply IH; [exact Hno |]. right. now exists rest.
Qed.

(** The default entry exists in the three catalogs, so the subscript
    [d["tokyo"]] never raises. *)
Lemma tokyo_in_catalogs :
  MOCK_FLIGHTS !! "tokyo" = Some tokyo_flights
  /\ MOCK_HOTELS !! "tokyo" = Some tokyo_hotels
  /\ MOCK_ACTIVITIES !! "tokyo" = Some tokyo_activities.
Proof. repeat split; reflexivity. Qed.



Lemma activities_cases (key : string) :
  get_or_tokyo MOCK_ACTIVITIES key = tokyo_activities
  \/ get_or_tokyo MOCK_ACTIVITIES key = paris_activities
  \/ get_or_tokyo MOCK_ACTIVITIES key = london_activities.
Proof.
  unfold get_or_tokyo, MOCK_ACTIVITIES.
  destruct (decide (key = "tokyo")) as [-> | Ht]; [left; reflexivity |].
  rewrite (lookup_insert_ne _ "tokyo" key) by congruence.
  destruct (decide (key = "paris")) as [-> | Hp]; [right; left; reflexivity |].
  rewrite (lookup_insert_ne _ "paris" key) by congruence.
  destruct (decide (key = "london")) as [-> | Hl]; [right; right; reflexivity |].
  rewrite (lookup_insert_ne _ "london" key) by congruence.
  rewrite lookup_empty. left. reflexivity.
Qed.






(** A preference that is neither ['budget'] nor ['luxury'], [None]
    included, fails both tests. *)
Lemma other_preference (preference : option string) :
  preference <> Some "budget" -> preference <> Some "luxury" ->
  Str.equals preference "budget" = false /\ Str.equals preference "luxury" = false.
Proof.
  intros Hb Hl. destruct preference as [p |]; [| split; reflexivity].
  split; apply String.eqb_neq; congruence.
Qed.

Lemma collect_two_per_interest (db : gmap string (list ActivityOption.t))
    (pick : string -> string) (interests : list string) (selected : list ActivityOption.t) :
  fold_left (fun selected interest =>
               selected ++ take 2 (default [] (db !! pick interest)))
    interests selected
  = selected ++ mjoin ((fun interest => take 2 (default [] (db !! pick interest)))
                         <$> interests).
Proof.
  revert selected. induction interests as [|i l IH]; intros selected; simpl.
  - now rewrite app_nil_r.
  - rewrite IH. now rewrite app_assoc.
Qed.

Section Lookups.
Context `{Str.Unicode}.


(** C7. The catalog key of a destination is the text before the first
    comma of the lower-cased destination, with surrounding white space
    stripped: it depends on nothing else of the destination. The flight,
    hotel and activity lookups answer from the catalog entry under that
    key and, when the catalog has no such key, from the entry of the
    default destination, Tokyo, which each catalog has: they are total
    functions and none raises. The entry is then filtered as for any
    destination. *)
Theorem destination_fallback (destination before : string) :
  before_first_comma (Str.lower destination) before ->
  let key := Str.strip before in
  let flights := default tokyo_flights (MOCK_FLIGHTS !! key) in
  let hotels := default tokyo_hotels (MOCK_HOTELS !! key) in
  let activities := default tokyo_activities (MOCK_ACTIVITIES !! key) in
  dest_key destination = key
  /\ (MOCK_FLIGHTS !! "tokyo" = Some tokyo_flights
      /\ MOCK_HOTELS !! "tokyo" = Some tokyo_hotels
      /\ MOCK_ACTIVITIES !! "tokyo" = Some tokyo_activities)
  /\ (get_flights destination (Some "budget")
        = take 2 (sorted FlightOption.price false flights)
      /\ get_flights destination (Some "luxury")
        = take 2 (sorted FlightOption.price true flights)
      /\ (forall preference, preference <> Some "budget" -> preference <> Some "luxury" ->
          get_flights destination preference = flights))
  /\ (forall nights : Z,
        let priced := with_total_price nights <$> hotels in
        get_hotels destination nights (Some "budget")
          = take 2 (sorted HotelOption.price_per_night false priced)
        /\ get_hotels destination nights (Some "luxury")
          = take 2 (sorted HotelOption.price_per_night true priced)
        /\ (forall preference, preference <> Some "budget" -> preference <> Some "luxury" ->
            get_hotels destination nights preference
            = take 2 (drop 1 (sorted HotelOption.price_per_night false priced))))
  /\ (forall (interests : list string) (max_count : Z),
        get_activities destination interests max_count
        = slice_to max_count
            (mjoin ((fun interest => take 2 (default [] (activities !! Str.lower interest)))
                      <$> interests))).
Proof.
  intros Hbefore key flights hotels activities.
  assert (Hkey : dest_key destination = key).
  { unfold dest_key. now rewrite (split_head_unique _ _ Hbefore). }
  assert (Hflights : get_or_tokyo MOCK_FLIGHTS (dest_key destination) = flights)
    by now rewrite Hkey.
  assert (Hhotels : get_or_tokyo MOCK_HOTELS (dest_key destination) = hotels)
    by now rewrite Hkey.
  assert (Hactivities : get_or_tokyo MOCK_ACTIVITIES (dest_key destination) = activities)
    by now rewrite Hkey.
  split; [exact Hkey |]. split; [repeat split |].
  split; [| split].
  - unfold get_flights. rewrite Hflights. split; [reflexivity |]. split; [reflexivity |].
    intros preference Hb Hl. destruct (other_preference preference Hb Hl) as [Eb El].
    now rewrite Eb, El.
  - intros nights priced. unfold get_hotels. rewrite Hhotels. fold priced.
    split; [reflexivity |]. split; [reflexivity |].
    intros preference Hb Hl. destruct (other_preference preference Hb Hl) as [Eb El].
    now rewrite Eb, El.
  - intros interests max_count. unfold get_activities. rewrite Hactivities.
    now rewrite collect_two_per_interest, app_nil_l.
Qed.

End Lookups.

#[local] Existing Instance Str.ascii_text.



(** An unknown city gets the flights, hotels and activities of Tokyo; a
    known one, written with spaces and capitals, its own. *)
Lemma destination_fallback_witness :
  (get_flights "Nowhereville" (Some "mid-range") = tokyo_flights
   /\ HotelOption.name <$> get_hotels "Nowhereville" 2 None
      = ["Shibuya Grand Hotel"; "Asakusa Traditional Ryokan"]
   /\ ActivityOption.name <$> get_activities "Nowhereville" ["Food"] 5
      = ["Tsukiji Outer Market Food Tour"; "Ramen Making Class"])
  /\ get_flights " PARIS , France" None = paris_flights.
Proof.
  split.
  - destruct (destination_fallback "Nowhereville" "nowhereville")
      as (_ & _ & (_ & _ & Hflights) & Hhotels & Hactivities).
    + change "nowhereville" with (Str.split_head "," (Str.lower "Nowhereville")).
      apply split_head_spec.
    + split; [apply Hflights; discriminate |]. split.
      * destruct (Hhotels 2%Z) as (_ & _ & Hother).
        rewrite (Hother None) by discriminate. reflexivity.
      * rewrite Hactivities. reflexivity.
  - destruct (destination_fallback " PARIS , France" " paris ")
      as (_ & _ & (_ & _ & Hflights) & _).
    + change " paris " with (Str.split_head "," (Str.lower " PARIS , France")).
      apply split_head_spec.
    + apply Hflights; discriminate.
Defined.

End CatalogFacts.

(** * Further properties *)

(** ** What the selection parsers can and cannot return *)

Module SelectionFacts.
Import Str Parser StrFacts ParserFacts.

#[local] Open Scope list_scope.

Section FindFacts.
Context {A : Type} (p : A -> bool).

Lemma find_elem (l : list A) (x : A) : List.find p l = Some x -> x ∈ l /\ p x = true.
Proof.
  induction l as [|y l IH]; simpl; [discriminate |].
  destruct (p y) eqn:Hy.
  - intros [= ->]. split; [apply list_elem_of_here | exact Hy].
  - intros Hx. destruct (IH Hx) as [Hin Hp]. split; [now apply list_elem_of_further | exact Hp].
Qed.

(** A match at [x] ends the search at [x] or before. *)
Lemma find_stops_by (pre rest : list A) (x : A) :
  p x = true -> exists y, y ∈ pre ++ [x] /\ List.find p (pre ++ x :: rest) = Some y.
Proof.
  intros Hx. induction pre as [|z pre IH]; simpl.
  - rewrite Hx. exists x. split; [apply list_elem_of_here | reflexivity].
  - destruct (p z).
    + exists z. split; [apply list_elem_of_here | reflexivity].
    + destruct IH as (y & Hy & Hfind). exists y. split; [now apply list_elem_of_further | exact Hfind].
Qed.

Lemma filter_sublist (l : list A) : List.filter p l `sublist_of` l.
Proof.
  induction l as [|x l IH]; simpl; [constructor |].
  destruct (p x); [now apply sublist_skip | now apply sublist_cons].
Qed.
End FindFacts.

Section Parsers.
Context `{Unicode}.

(** X1. The answer of a single-selection parse is always one of the candidates
    it was given, and it is absent only when there is no candidate. *)
Theorem single_selection_is_a_candidate (response : string) :
  (forall (flights : list FlightOption.t),
      (forall f, _parse_flight_from_response response flights = Some f -> f ∈ flights)
      /\ (_parse_flight_from_response response flights = None <-> flights = []))
  /\ (forall (hotels : list HotelOption.t),
      (forall h, _parse_hotel_from_response response hotels = Some h -> h ∈ hotels)
      /\ (_parse_hotel_from_response response hotels = None <-> hotels = [])).
Proof.
  split; intros l; unfold _parse_flight_from_response, _parse_hotel_from_response.
  - destruct (List.find _ l) as [x |] eqn:Hfind.
    + apply find_elem in Hfind as [Hin _]. split.
      * now intros f [= <-].
      * split; [discriminate | intros ->; now apply elem_of_nil in Hin].
    + split.
      * intros f Hf. apply head_Some_elem_of. exact Hf.
      * apply head_None.
  - destruct (List.find _ l) as [x |] eqn:Hfind.
    + apply find_elem in Hfind as [Hin _]. split.
      * now intros f [= <-].
      * split; [discriminate | intros ->; now apply elem_of_nil in Hin].
    + split.
      * intros f Hf. apply head_Some_elem_of. exact Hf.
      * apply head_None.
Qed.

(** X2. The answer of the multi-selection parse is a selection of the
    candidates in their input order, holds at most six of them, and is
    empty only when there is no candidate. *)
Theorem multi_selection_is_a_selection (response : string) (activities : list ActivityOption.t) :
  _parse_activities_from_response response activities `sublist_of` activities
  /\ (List.length (_parse_activities_from_response response activities) <= 6)%nat
  /\ (_parse_activities_from_response response activities = [] <-> activities = []).
Proof.
  unfold _parse_activities_from_response.
  rewrite activities_loop_spec by (simpl; lia). rewrite app_nil_l.
  set (named := fun a => contains (lower (ActivityOption.name a)) (lower response)).
  destruct (List.filter named activities) as [|m ms] eqn:Hf.
  - change (match take 6 [] with [] => take 6 activities | _ :: _ => take 6 [] end)
      with (take 6 activities).
    split; [apply sublist_take | split].
    + rewrite length_take. lia.
    + destruct activities; [tauto | split; discriminate].
  - change (match take 6 (m :: ms) with [] => take 6 activities | _ :: _ => take 6 (m :: ms) end)
      with (take 6 (m :: ms)).
    split; [| split].
    + etransitivity; [apply sublist_take |]. rewrite <- Hf. apply filter_sublist.
    + rewrite length_take. lia.
    + split; [discriminate |]. intros ->. discriminate.
Qed.

(** X3. A candidate listed after one whose lower-cased name occurs inside
    its own lower-cased name is out of reach: any response that names it
    makes the parser stop at the earlier candidate, or before. *)
Theorem shadowed_flight_is_never_selected (response : string)
    (pre mid post : list FlightOption.t) (a b : FlightOption.t) :
  named_in (FlightOption.airline a) (FlightOption.airline b) ->
  named_in (FlightOption.airline b) response ->
  exists x, x ∈ pre ++ [a]
            /\ _parse_flight_from_response response (pre ++ a :: mid ++ b :: post) = Some x.
Proof.
  intros Hab Hb. unfold _parse_flight_from_response.
  set (p := fun flight => contains (lower (FlightOption.airline flight)) (lower response)).
  assert (Ha : p a = true).
  { apply contains_lower. exact (occurs_trans _ _ _ Hab Hb). }
  destruct (find_stops_by p pre (mid ++ b :: post) a Ha) as (x & Hx & ->).
  now exists x.
Qed.

End Parsers.

#[local] Existing Instance ascii_text.

(** Naming the business-class flight of the Tokyo catalog selects the
    economy flight of the same airline, listed before it. *)
Lemma shadowed_flight_is_never_selected_witness :
  exists x, x ∈ take 2 mock_data.tokyo_flights
            /\ _parse_flight_from_response "I suggest Premium Business Class - ANA"
                 mock_data.tokyo_flights = Some x.
Proof.
  apply (shadowed_flight_is_never_selected "I suggest Premium Business Class - ANA"
           (take 1 mock_data.tokyo_flights) (take 1 (drop 2 mock_data.tokyo_flights)) []
           (FlightOption.mk "ANA" "2025-02-01 14:00" "2025-02-01 18:00" "10h 00m" 720.00 0)
           (FlightOption.mk "Premium Business Class - ANA" "2025-02-01 09:00"
              "2025-02-01 13:00" "10h 00m" 1250.00 0)).
  - apply contains_lower. vm_compute. reflexivity.
  - apply contains_lower. vm_compute. reflexivity.
Defined.

End SelectionFacts.

(** ** What the lookups return *)

Module LookupFacts.
Import StrFacts FloatFacts CatalogFacts.

#[local] Open Scope list_scope.

Section SortedOrder.
Context {A : Type} (key : A -> float) (reverse : bool).

#[local] Abbreviation may_follow := (may_follow key reverse).

Lemma goes_before_asym (k1 k2 : float) :
  goes_before reverse k1 k2 = true -> goes_before reverse k2 k1 = false.
Proof.
  unfold goes_before. destruct reverse; intros Hlt.
  - destruct (PrimFloat.ltb k1 k2) eqn:E; [| reflexivity].
    pose proof (ltb_not_leb _ _ Hlt) as Hn.
    rewrite FloatAxioms.ltb_spec in E. rewrite FloatAxioms.leb_spec in Hn.
    unfold SFltb in E. unfold SFleb in Hn.
    destruct (SFcompare (Prim2SF k1) (Prim2SF k2)) as [[]|]; discriminate.
  - destruct (PrimFloat.ltb k2 k1) eqn:E; [| reflexivity].
    pose proof (ltb_not_leb _ _ Hlt) as Hn.
    rewrite FloatAxioms.ltb_spec in E. rewrite FloatAxioms.leb_spec in Hn.
    unfold SFltb in E. unfold SFleb in Hn.
    destruct (SFcompare (Prim2SF k2) (Prim2SF k1)) as [[]|]; discriminate.
Qed.

Lemma insert_sorted_in_order (x : A) (l : list A) :
  Sorted may_follow l -> Sorted may_follow (insert_sorted key reverse x l).
Proof.
  induction 1 as [|y l Hl IH Hhd]; simpl.
  - repeat constructor.
  - destruct (goes_before reverse (key y) (key x)) eqn:Hyx.
    + constructor; [exact IH |].
      destruct l as [|z l]; simpl.
      * constructor. now apply goes_before_asym.
      * destruct (goes_before reverse (key z) (key x)).
        -- constructor. now inversion Hhd.
        -- constructor. now apply goes_before_asym.
    + constructor; [now constructor | constructor; exact Hyx].
Qed.

(** The sort leaves no item followed by one that had to go before it. *)
Lemma sorted_in_order (l : list A) : Sorted may_follow (sorted key reverse l).
Proof.
  induction l as [|x l IH]; [constructor |].
  rewrite sorted_cons. now apply insert_sorted_in_order.
Qed.

Lemma Sorted_drop (n : nat) (l : list A) : Sorted may_follow l -> Sorted may_follow (drop n l).
Proof.
  revert l. induction n as [|n IH]; intros l Hl; [now rewrite drop_0 |].
  destruct l as [|x l]; [constructor |]. simpl. apply IH. now inversion Hl.
Qed.

Lemma Sorted_take (n : nat) (l : list A) : Sorted may_follow l -> Sorted may_follow (take n l).
Proof.
  revert l. induction n as [|n IH]; intros l Hl; [constructor |].
  destruct l as [|x l]; [constructor |]. simpl.
  inversion Hl as [| ? ? Hl' Hhd]; subst. constructor; [now apply IH |].
  destruct l as [|y l]; [rewrite take_nil; constructor |].
  destruct n; [constructor |].
  simpl. constructor. now inversion Hhd.
Qed.

Lemma sorted_slice_elem (j k : nat) (l : list A) (x : A) :
  x ∈ take k (drop j (sorted key reverse l)) -> x ∈ l.
Proof.
  intros Hx. apply subseteq_take, subseteq_drop in Hx.
  now rewrite sorted_perm in Hx.
Qed.
End SortedOrder.


Section Lookups.
Context `{Str.Unicode}.

(** X4. Every hotel a lookup returns carries a total price recomputed for the
    nights asked: the nightly price times the number of nights, whether it
    comes from the static catalog or from a cached snapshot. *)
Theorem hotel_total_price_is_recomputed (cached_data : hybrid_data.cached_data_t)
    (destination : string) (nights : Z) (preference : option string) (hotel : HotelOption.t) :
  hotel ∈ hybrid_data.get_hotels cached_data destination nights preference ->
  HotelOption.total_price hotel
  = (HotelOption.price_per_night hotel * float_of_Z nights)%float.
Proof.
  assert (Hmap : forall (B : Type) (f : B -> HotelOption.t) (l : list B)
                        (s : list HotelOption.t),
             (forall h, HotelOption.total_price (f h)
                        = (HotelOption.price_per_night (f h) * float_of_Z nights)%float) ->
             hotel ∈ s -> s ⊆ f <$> l ->
             HotelOption.total_price hotel
             = (HotelOption.price_per_night hotel * float_of_Z nights)%float).
  { intros B f l s Hf Hin Hsub. apply Hsub, list_elem_of_fmap in Hin as (h & -> & _). apply Hf. }
  assert (Hslices : forall (l : list HotelOption.t) (r : bool) (j k : nat),
             take k (drop j (sorted HotelOption.price_per_night r l)) ⊆ l).
  { intros l r j k x Hx. now apply sorted_slice_elem in Hx. }
  assert (Hmock : hotel ∈ mock_data.get_hotels destination nights preference ->
                  HotelOption.total_price hotel
                  = (HotelOption.price_per_night hotel * float_of_Z nights)%float).
  { unfold mock_data.get_hotels. intros Hin.
    eapply (Hmap _ (mock_data.with_total_price nights)); [reflexivity | exact Hin |].
    destruct (Str.equals preference "budget"); [apply (Hslices _ false 0%nat 2%nat) |].
    destruct (Str.equals preference "luxury"); [apply (Hslices _ true 0%nat 2%nat) |].
    apply (Hslices _ false 1%nat 2%nat). }
  unfold hybrid_data.get_hotels.
  destruct (hybrid_data.CachedCity.hotels <$> _) as [[|c cs] |]; try exact Hmock.
  intros Hin.
  match type of Hin with
  | context [sorted _ _ (?f <$> ?l)] => apply (Hmap _ f l _ (fun _ => eq_refl) Hin)
  end.
  destruct (Str.equals preference "budget"); [apply (Hslices _ false 0%nat 3%nat) |].
  destruct (Str.equals preference "luxury"); [apply (Hslices _ true 0%nat 3%nat) |].
  apply (Hslices _ false 2%nat 3%nat).
Qed.

(** X5. Hotels come back in price order, whatever their source: by descending
    nightly price for the preference ['luxury'], by ascending nightly price
    for any other; no hotel is followed by one that the order puts
    strictly before it. *)
Theorem hotels_come_in_price_order (cached_data : hybrid_data.cached_data_t)
    (destination : string) (nights : Z) (preference : option string) :
  Sorted (may_follow HotelOption.price_per_night (Str.equals preference "luxury"))
    (hybrid_data.get_hotels cached_data destination nights preference).
Proof.
  assert (Hslice : forall (l : list HotelOption.t) (r : bool) (j k : nat),
             Sorted (may_follow HotelOption.price_per_night r)
               (take k (drop j (sorted HotelOption.price_per_night r l)))).
  { intros l r j k. apply Sorted_take, Sorted_drop, sorted_in_order. }
  unfold hybrid_data.get_hotels, mock_data.get_hotels.
  destruct (hybrid_data.CachedCity.hotels <$> _) as [[|c cs] |];
    destruct (Str.equals preference "budget") eqn:Eb;
    destruct (Str.equals preference "luxury") eqn:El;
    try (apply equals_true in Eb; subst preference; discriminate El);
    first [ apply (Hslice _ _ 0%nat) | apply Hslice ].
Qed.

End Lookups.

#[local] Existing Instance Str.ascii_text.

(** Three nights at the Shibuya Grand Hotel. *)
Lemma hotel_total_price_is_recomputed_witness :
  HotelOption.total_price
    (mock_data.with_total_price 3
       (HotelOption.mk "Shibuya Grand Hotel" "Shibuya, Tokyo" 120.00 0 4.2
          ["WiFi"; "Breakfast"; "Gym"; "City View"]))
  = (120 * float_of_Z 3)%float.
Proof.
  apply (hotel_total_price_is_recomputed None "Tokyo, Japan" 3 (Some "mid-range")).
  vm_compute. apply list_elem_of_here.
Defined.

End LookupFacts.

(** ** The activity lookup *)

Module ActivityLookupFacts.
Import mock_data CatalogFacts.

#[local] Open Scope list_scope.

Lemma slice_to_sublist {A : Type} (n : Z) (l : list A) : slice_to n l `sublist_of` l.
Proof. unfold slice_to. destruct (n <? 0); apply sublist_take. Qed.

Lemma slice_to_length {A : Type} (n : Z) (l : list A) :
  0 <= n -> (List.length (slice_to n l) <= Z.to_nat n)%nat.
Proof.
  intros Hn. unfold slice_to. destruct (Z.ltb_spec n 0); [lia |].
  rewrite length_take. lia.
Qed.

(** Where a selected activity comes from. *)
Section Lookups.
Context `{Str.Unicode}.

Lemma activity_origin (destination : string) (interests : list string) (max_count : Z)
    (a : ActivityOption.t) :
  a ∈ get_activities destination interests max_count ->
  exists interest,
    interest ∈ interests
    /\ a ∈ default [] (get_or_tokyo MOCK_ACTIVITIES (dest_key destination) !! Str.lower interest).
Proof.
  unfold get_activities. rewrite collect_two_per_interest, app_nil_l. intros Ha.
  apply (fun H => elem_of_sublist _ _ _ H (slice_to_sublist _ _)) in Ha.
  apply list_elem_of_join in Ha as (chosen & Ha & Hchosen).
  apply list_elem_of_fmap in Hchosen as (interest & -> & Hi).
  exists interest. apply subseteq_take in Ha. now split.
Qed.

(** X6. The static activity lookup gives at most two activities per interest
    asked and, for a non-negative [max_count], at most [max_count]; each
    activity it gives is filed in the destination's table under one of the
    interests asked, in lower case. No interest, no activity. *)
Theorem activities_match_the_interests (destination : string) (interests : list string)
    (max_count : Z) :
  let db := get_or_tokyo MOCK_ACTIVITIES (dest_key destination) in
  (List.length (get_activities destination interests max_count)
   <= 2 * List.length interests)%nat
  /\ (0 <= max_count ->
      (List.length (get_activities destination interests max_count) <= Z.to_nat max_count)%nat)
  /\ (forall a, a ∈ get_activities destination interests max_count ->
      exists interest, interest ∈ interests /\ db !! Str.lower interest ≠ None
                       /\ a ∈ default [] (db !! Str.lower interest))
  /\ get_activities destination [] max_count = [].
Proof.
  intros db. unfold get_activities. fold db.
  rewrite collect_two_per_interest, app_nil_l.
  set (per := fun interest => take 2 (default [] (db !! Str.lower interest))).
  split; [| split; [| split]].
  - etransitivity; [apply sublist_length, slice_to_sublist |].
    induction interests as [|i l IH]; [simpl; lia |].
    rewrite fmap_cons. change (mjoin (per i :: (per <$> l))) with (per i ++ mjoin (per <$> l)).
    rewrite length_app. unfold per at 1. rewrite length_take.
    change (List.length (i :: l)) with (S (List.length l)). lia.
  - apply slice_to_length.
  - intros a Ha.
    apply (fun H => elem_of_sublist _ _ _ H (slice_to_sublist _ _)) in Ha.
    apply list_elem_of_join in Ha as (chosen & Ha & Hchosen).
    apply list_elem_of_fmap in Hchosen as (interest & -> & Hi).
    exists interest. unfold per in Ha. apply subseteq_take in Ha.
    split; [exact Hi | split; [| exact Ha]].
    intros Hnone. rewrite Hnone in Ha. now apply elem_of_nil in Ha.
  - unfold slice_to. cbn [fold_left]. destruct (max_count <? 0); now rewrite take_nil.
Qed.

End Lookups.

End ActivityLookupFacts.

(** ** What the planners do with the lookups *)

Module PlannerFacts.
Import StrFacts FloatFacts CatalogFacts.

#[local] Open Scope list_scope.

Section Planners.
Context `{Str.Unicode}.

Lemma parse_flight_nil (response : string) : Parser._parse_flight_from_response response [] = None.
Proof. reflexivity. Qed.

Lemma parse_hotel_nil (response : string) : Parser._parse_hotel_from_response response [] = None.
Proof. reflexivity. Qed.

Lemma plan_trip_without_candidates (cached_data : hybrid_data.cached_data_t)
    (answers : squad_answers) (request : MultiAgentRequest.t) :
  let travel := MultiAgentRequest.travel request in
  hybrid_data.get_flights cached_data (TravelRequest.destination travel) (Some "mid-range") = []
  \/ hybrid_data.get_hotels cached_data (TravelRequest.destination travel)
       (TravelRequest.duration_days travel) (TravelRequest.hotel_preference travel) = [] ->
  exists logs e, multi_plan_trip cached_data answers request = plan_trip_failed logs e.
Proof.
  intros travel Hempty. subst travel. unfold multi_plan_trip. cbv zeta.
  destruct (flight_response answers) as [flight_content | e]; [| now eexists _, _].
  destruct Hempty as [Hflights | Hhotels].
  - rewrite Hflights, parse_flight_nil. now eexists _, _.
  - destruct (Parser._parse_flight_from_response _ _) as [flight |]; [| now eexists _, _].
    destruct (hotel_response answers) as [hotel_content | e]; [| now eexists _, _].
    rewrite Hhotels, parse_hotel_nil. now eexists _, _.
Qed.

(** X7. [plan_trip] of the specialist planner cannot do without a flight and a
    hotel: when either lookup comes back empty it returns the error
    response, with no itinerary, whatever the specialists answered. *)
Theorem plan_trip_fails_without_candidates (cached_data : hybrid_data.cached_data_t)
    (answers : squad_answers) (request : MultiAgentRequest.t) :
  let travel := MultiAgentRequest.travel request in
  hybrid_data.get_flights cached_data (TravelRequest.destination travel) (Some "mid-range") = []
  \/ hybrid_data.get_hotels cached_data (TravelRequest.destination travel)
       (TravelRequest.duration_days travel) (TravelRequest.hotel_preference travel) = [] ->
  MultiAgentResponse.success (multi_plan_trip cached_data answers request) = false
  /\ MultiAgentResponse.status (multi_plan_trip cached_data answers request) = ERROR
  /\ MultiAgentResponse.itinerary (multi_plan_trip cached_data answers request) = None
  /\ exists logs e,
       MultiAgentResponse.agent_logs (multi_plan_trip cached_data answers request)
       = logs ++ [AgentLog.mk "Supervisor" (AgentLog.Error_raised e)].
Proof.
  intros travel Hempty.
  destruct (plan_trip_without_candidates _ answers request Hempty) as (logs & e & ->).
  repeat split. now exists logs, e.
Qed.

Lemma one_hotel_lookup (destination : string) (nights : Z) (preference : option string) :
  dest_key_in destination ["paris"; "london"] ->
  preference <> Some "budget" -> preference <> Some "luxury" ->
  mock_data.get_hotels destination nights preference = [].
Proof.
  unfold dest_key_in. intros Hkey Hb Hl. unfold mock_data.get_hotels.
  destruct (other_preference preference Hb Hl) as [-> ->].
  rewrite !elem_of_cons, elem_of_nil in Hkey.
  destruct Hkey as [-> | [-> | []]]; reflexivity.
Qed.

(** X8. Paris and London have one hotel each in the static catalog, and the
    slice taken for a preference that is neither ['budget'] nor ['luxury']
    starts at the second hotel. For these destinations and such a
    preference (the default ['mid-range'] included), without a cached entry
    for the city: the hotel lookup is empty; [plan_trip] of the specialist
    planner returns the error response; the tool-based planner returns an
    itinerary without hotel and with an accommodation cost of zero; the
    monolithic planner reports the missing accommodation as an error and
    the status [FAILURE]. *)
Theorem one_hotel_destinations_have_no_mid_range_hotel
    (cached_data : hybrid_data.cached_data_t) (request : TravelRequest.t) :
  dest_key_in (TravelRequest.destination request) ["paris"; "london"] ->
  TravelRequest.hotel_preference request <> Some "budget" ->
  TravelRequest.hotel_preference request <> Some "luxury" ->
  hybrid_data.cached_city cached_data (mock_data.dest_key (TravelRequest.destination request))
    = None ->
  hybrid_data.get_hotels cached_data (TravelRequest.destination request)
    (TravelRequest.duration_days request) (TravelRequest.hotel_preference request) = []
  /\ (forall answers enable_logging,
        exists logs e,
          multi_plan_trip cached_data answers (MultiAgentRequest.mk request enable_logging)
          = MultiAgentResponse.mk false ERROR None
              (logs ++ [AgentLog.mk "Supervisor" (AgentLog.Error_raised e)]))
  /\ TravelItinerary.hotel (strands_plan_trip_stream cached_data request) = None
  /\ TravelItinerary.cost_breakdown (strands_plan_trip_stream cached_data request)
       !! "accommodation" = Some (float_of_Z 0)
  /\ (forall response,
        No_suitable_accommodation
          ∈ SingleAgentResponse.errors (single_plan_trip cached_data (inl response) request)
        /\ SingleAgentResponse.status (single_plan_trip cached_data (inl response) request)
           = FAILURE).
Proof.
  intros Hkey Hb Hl Hnone.
  assert (Hhotels : hybrid_data.get_hotels cached_data (TravelRequest.destination request)
                      (TravelRequest.duration_days request)
                      (TravelRequest.hotel_preference request) = []).
  { unfold hybrid_data.get_hotels. rewrite Hnone. cbn [fmap option_fmap option_map].
    now apply one_hotel_lookup. }
  split; [exact Hhotels | split; [| split; [| split]]].
  - intros answers enable_logging.
    apply (plan_trip_without_candidates cached_data answers
             (MultiAgentRequest.mk request enable_logging)).
    now right.
  - unfold strands_plan_trip_stream. now rewrite Hhotels.
  - unfold strands_plan_trip_stream. now rewrite Hhotels.
  - intros response. unfold single_plan_trip, _parse_agent_response. rewrite Hhotels.
    cbn [last build_itinerary TravelItinerary.hotel TravelItinerary.flights
         TravelItinerary.activities TravelItinerary.actual_cost TravelItinerary.total_budget
         SingleAgentResponse.errors SingleAgentResponse.status].
    split.
    + rewrite !elem_of_app. right. right. apply list_elem_of_here.
    + destruct (PrimFloat.ltb _ _); [reflexivity |].
      destruct (head _); reflexivity.
Qed.

End Planners.

#[local] Existing Instance Str.ascii_text.

(** A trip to Paris for three nights with the default preference. *)
Lemma plan_trip_fails_without_candidates_witness :
  let request :=
    MultiAgentRequest.mk
      (TravelRequest.mk "Paris, France" 3 2000 2 None (Some "mid-range") (Some "moderate"))
      true in
  let answers :=
    {| flight_response := inl (Some [AgentText.Dict (Some "Air France")]);
       hotel_response := inl (Some [AgentText.Dict (Some "Eiffel View Hotel")]);
       activity_response := inl (Some [AgentText.Dict (Some "Eiffel Tower Visit")]);
       budget_response := inl tt |} in
  MultiAgentResponse.success (multi_plan_trip None answers request) = false
  /\ MultiAgentResponse.status (multi_plan_trip None answers request) = ERROR
  /\ MultiAgentResponse.itinerary (multi_plan_trip None answers request) = None
  /\ exists logs e,
       MultiAgentResponse.agent_logs (multi_plan_trip None answers request)
       = logs ++ [AgentLog.mk "Supervisor" (AgentLog.Error_raised e)].
Proof.
  intros request answers.
  apply (plan_trip_fails_without_candidates None answers request).
  right. reflexivity.
Defined.

(** London for a weekend, default preference, no snapshot. *)
Lemma one_hotel_destinations_have_no_mid_range_hotel_witness :
  let request :=
    TravelRequest.mk "London, UK" 2 1500 1 None (Some "mid-range") (Some "moderate") in
  hybrid_data.get_hotels None "London, UK" 2 (Some "mid-range") = []
  /\ (forall answers enable_logging,
        exists logs e,
          multi_plan_trip None answers (MultiAgentRequest.mk request enable_logging)
          = MultiAgentResponse.mk false ERROR None
              (logs ++ [AgentLog.mk "Supervisor" (AgentLog.Error_raised e)]))
  /\ TravelItinerary.hotel (strands_plan_trip_stream None request) = None
  /\ TravelItinerary.cost_breakdown (strands_plan_trip_stream None request)
       !! "accommodation" = Some (float_of_Z 0)
  /\ (forall response,
        No_suitable_accommodation
          ∈ SingleAgentResponse.errors (single_plan_trip None (inl response) request)
        /\ SingleAgentResponse.status (single_plan_trip None (inl response) request) = FAILURE).
Proof.
  intros request.
  apply (one_hotel_destinations_have_no_mid_range_hotel None request).
  - unfold dest_key_in. vm_compute. apply list_elem_of_further, list_elem_of_here.
  - discriminate.
  - discriminate.
  - reflexivity.
Defined.

End PlannerFacts.

(** ** The report of the monolithic planner *)

Module ReportFacts.
Import FloatFacts.

#[local] Open Scope list_scope.

Section Planners.
Context `{Str.Unicode}.

(** X9. What the monolithic planner reports, read off the lookups. When the
    model call returns: the flight error is reported exactly when the
    ['luxury'] flight lookup is empty, the accommodation error exactly when
    the hotel lookup is empty, the activity warning exactly when the
    activity lookup is empty; the status is [SUCCESS] exactly when the cost
    does not exceed the budget and the three lookups are non-empty, and
    [PARTIAL] exactly when only the activities are missing. When the call
    raises, the response is the error response. *)
Theorem single_agent_report (cached_data : hybrid_data.cached_data_t) (request : TravelRequest.t) :
  let flights := hybrid_data.get_flights cached_data (TravelRequest.destination request)
                   (Some "luxury") in
  let hotels := hybrid_data.get_hotels cached_data (TravelRequest.destination request)
                  (TravelRequest.duration_days request)
                  (TravelRequest.hotel_preference request) in
  let activities := hybrid_data.get_activities cached_data (TravelRequest.destination request)
                      (TravelRequest.interests_or request "sightseeing") 10 in
  (forall response : string,
      let r := single_plan_trip cached_data (inl response) request in
      let over := PrimFloat.ltb (TravelRequest.budget request)
                    (TravelItinerary.actual_cost
                       (_parse_agent_response cached_data response request)) in
      SingleAgentResponse.success r = true
      /\ (No_suitable_flights ∈ SingleAgentResponse.errors r <-> flights = [])
      /\ (No_suitable_accommodation ∈ SingleAgentResponse.errors r <-> hotels = [])
      /\ (No_activities_planned ∈ SingleAgentResponse.warnings r <-> activities = [])
      /\ (SingleAgentResponse.status r = SUCCESS
          <-> over = false /\ flights <> [] /\ hotels <> [] /\ activities <> [])
      /\ (SingleAgentResponse.status r = PARTIAL
          <-> over = false /\ flights <> [] /\ hotels <> [] /\ activities = [])
      /\ SingleAgentResponse.status r <> ERROR)
  /\ (forall e : string,
      single_plan_trip cached_data (inr e) request
      = SingleAgentResponse.mk false ERROR None [Exception_text e] []).
Proof.
  intros flights hotels activities. split; [| reflexivity].
  intros response r over. subst r over.
  unfold single_plan_trip, _parse_agent_response. fold flights hotels activities.
  cbn [build_itinerary TravelItinerary.hotel TravelItinerary.flights
       TravelItinerary.activities TravelItinerary.actual_cost TravelItinerary.total_budget
       SingleAgentResponse.errors SingleAgentResponse.status SingleAgentResponse.warnings
       SingleAgentResponse.success].
  assert (Hact : take 5 activities = [] <-> activities = []).
  { destruct activities; [tauto | split; discriminate]. }
  pose proof (head_None flights) as Hf. pose proof (last_None hotels) as Hh.
  destruct (head flights) as [f |]; destruct (last hotels) as [h |];
    destruct (PrimFloat.ltb _ _); destruct (take 5 activities) as [|a1 as1];
    cbn [app]; rewrite ?elem_of_cons, ?elem_of_nil;
    repeat split; intros;
    repeat match goal with
           | H : _ /\ _ |- _ => destruct H
           | H : _ \/ _ |- _ => destruct H
           end;
    try discriminate; try congruence; try tauto;
    try (exfalso; intuition congruence);
    try (intuition congruence).
Qed.

End Planners.

End ReportFacts.

(** ** The cost breakdown of an itinerary *)

Module BreakdownFacts.
Import BudgetFacts.

#[local] Open Scope float_scope.

Lemma built_itinerary_adds_up (request : TravelRequest.t) (c : Costs.t)
    (flight : option FlightOption.t) (hotel : option HotelOption.t)
    (activities : list ActivityOption.t) :
  adds_up c ->
  let it := build_itinerary request c flight hotel activities in
  exists flights accommodation acts food misc : float,
    TravelItinerary.cost_breakdown it !! "flights" = Some flights
    /\ TravelItinerary.cost_breakdown it !! "accommodation" = Some accommodation
    /\ TravelItinerary.cost_breakdown it !! "activities" = Some acts
    /\ TravelItinerary.cost_breakdown it !! "food" = Some food
    /\ TravelItinerary.cost_breakdown it !! "misc" = Some misc
    /\ dom (TravelItinerary.cost_breakdown it)
       = {["flights"; "accommodation"; "activities"; "food"; "misc"]}
    /\ TravelItinerary.actual_cost it = flights + accommodation + acts + food + misc.
Proof.
  intros Hsum it.
  exists (Costs.flights c), (Costs.accommodation c), (Costs.activities c),
         (Costs.food c), (Costs.misc c).
  subst it. unfold build_itinerary, cost_breakdown_of.
  cbn [TravelItinerary.cost_breakdown TravelItinerary.actual_cost].
  repeat split; try exact Hsum; by simplify_map_eq.
Qed.

Section Planners.
Context `{Str.Unicode}.

(** X10. In every itinerary a planner returns, the cost breakdown has exactly
    the five entries flights, accommodation, activities, food and misc, and
    the actual cost is their sum, added from the left in floating point. *)
Theorem actual_cost_is_the_sum_of_the_breakdown
    (cached_data : hybrid_data.cached_data_t) (it : TravelItinerary.t) :
  produced cached_data it ->
  exists flights accommodation acts food misc : float,
    TravelItinerary.cost_breakdown it !! "flights" = Some flights
    /\ TravelItinerary.cost_breakdown it !! "accommodation" = Some accommodation
    /\ TravelItinerary.cost_breakdown it !! "activities" = Some acts
    /\ TravelItinerary.cost_breakdown it !! "food" = Some food
    /\ TravelItinerary.cost_breakdown it !! "misc" = Some misc
    /\ dom (TravelItinerary.cost_breakdown it)
       = {["flights"; "accommodation"; "activities"; "food"; "misc"]}
    /\ TravelItinerary.actual_cost it = flights + accommodation + acts + food + misc.
Proof.
  intros [(response & request & ->) | [(answers & request & Hsome)
          | [(text & request & ->) | (request & ->)]]].
  - now apply built_itinerary_adds_up.
  - apply plan_trip_itinerary in Hsome as (flight & hotel & activities & -> & _).
    now apply built_itinerary_adds_up.
  - now apply built_itinerary_adds_up.
  - now apply built_itinerary_adds_up.
Qed.

(** The tool-based planner's itinerary for Tokyo, two nights, budget 3000. *)
End Planners.

#[local] Existing Instance Str.ascii_text.

(** The tool-based planner's itinerary for Tokyo, two nights, budget 3000. *)
Lemma actual_cost_is_the_sum_of_the_breakdown_witness :
  let it := strands_plan_trip_stream None (tokyo_request 3000 2) in
  exists flights accommodation acts food misc : float,
    TravelItinerary.cost_breakdown it !! "flights" = Some flights
    /\ TravelItinerary.cost_breakdown it !! "accommodation" = Some accommodation
    /\ TravelItinerary.cost_breakdown it !! "activities" = Some acts
    /\ TravelItinerary.cost_breakdown it !! "food" = Some food
    /\ TravelItinerary.cost_breakdown it !! "misc" = Some misc
    /\ dom (TravelItinerary.cost_breakdown it)
       = {["flights"; "accommodation"; "activities"; "food"; "misc"]}
    /\ TravelItinerary.actual_cost it = flights + accommodation + acts + food + misc.
Proof.
  apply (actual_cost_is_the_sum_of_the_breakdown None).
  right; right; right. exists (tokyo_request 3000 2). reflexivity.
Defined.

End BreakdownFacts.

(** ** Complexity analysis of the tool-based planner *)

Module ComplexityFacts.
Import Strands.

#[local] Open Scope Z_scope.

(** The three outcomes of one factor of the analysis. *)
Lemma factor_cases (value high low : Z) (many some : Z -> reason) :
  low <= high ->
  (value <= low /\ factor value high low many some = (0, []))
  \/ (low < value <= high /\ factor value high low many some = (1, [some value]))
  \/ (high < value /\ factor value high low many some = (2, [many value])).
Proof.
  intros Hlh. unfold factor.
  destruct (Z.ltb_spec high value); [right; right; split; [lia | reflexivity] |].
  destruct (Z.ltb_spec low value); [right; left | left]; (split; [lia | reflexivity]).
Qed.

Lemma factor_mono (v1 v2 high low : Z) (many some : Z -> reason) :
  low <= high -> v1 <= v2 ->
  (factor v1 high low many some).1 <= (factor v2 high low many some).1.
Proof.
  intros Hlh Hv.
  destruct (factor_cases v1 high low many some Hlh) as [[H1 ->] | [[H1 ->] | [H1 ->]]];
    destruct (factor_cases v2 high low many some Hlh) as [[H2 ->] | [[H2 ->] | [H2 ->]]];
    cbn [fst]; lia.
Qed.

(** The score is the sum of the four factors. *)
Lemma score_is_a_sum (request : TravelRequest.t) :
  complexity_score (_analyze_trip_complexity request)
  = (factor (TravelRequest.duration_days request) 7 4 Long_duration Some_duration).1
    + (factor (TravelRequest.travelers request) 4 2 Large_group Some_travelers).1
    + (factor (Z.of_nat (List.length (default [] (TravelRequest.interests request)))) 3 1
         Many_interests Some_interests).1
    + (if PrimFloat.ltb (TravelRequest.budget request) 2000 then 1 else 0).
Proof.
  unfold _analyze_trip_complexity.
  destruct (factor (TravelRequest.duration_days request) _ _ _ _) as [s1 r1].
  destruct (factor (TravelRequest.travelers request) _ _ _ _) as [s2 r2].
  destruct (factor (Z.of_nat _) _ _ _ _) as [s3 r3].
  destruct (PrimFloat.ltb _ _); cbn [fst];
    repeat match goal with
           | |- context [if ?b then _ else _] => destruct b
           end; cbn [complexity_score]; lia.
Qed.

(** The strategy and the tool count are read off the score. *)
Lemma plan_of_score (request : TravelRequest.t) :
  let c := _analyze_trip_complexity request in
  (strategy c, tool_count c)
  = if 5 <=? complexity_score c then ("swarm", 8)
    else if 3 <=? complexity_score c then ("swarm", 6)
    else ("sequential", 4).
Proof.
  unfold _analyze_trip_complexity.
  destruct (factor (TravelRequest.duration_days request) _ _ _ _) as [s1 r1].
  destruct (factor (TravelRequest.travelers request) _ _ _ _) as [s2 r2].
  destruct (factor (Z.of_nat _) _ _ _ _) as [s3 r3].
  destruct (PrimFloat.ltb _ _);
    match goal with
    | |- context [5 <=? ?s] =>
        destruct (5 <=? s) eqn:H5; [| destruct (3 <=? s) eqn:H3]
    end; cbn [complexity_score strategy tool_count]; rewrite ?H5, ?H3; reflexivity.
Qed.

(** The reasons are those of the four factors, in their order. *)
Lemma reasons_are_collected (request : TravelRequest.t) :
  reasons (_analyze_trip_complexity request)
  = ((factor (TravelRequest.duration_days request) 7 4 Long_duration Some_duration).2
     ++ (factor (TravelRequest.travelers request) 4 2 Large_group Some_travelers).2
     ++ (factor (Z.of_nat (List.length (default [] (TravelRequest.interests request)))) 3 1
           Many_interests Some_interests).2
     ++ (if PrimFloat.ltb (TravelRequest.budget request) 2000 then [Tight_budget] else []))%list.
Proof.
  unfold _analyze_trip_complexity.
  destruct (factor (TravelRequest.duration_days request) _ _ _ _) as [s1 r1].
  destruct (factor (TravelRequest.travelers request) _ _ _ _) as [s2 r2].
  destruct (factor (Z.of_nat _) _ _ _ _) as [s3 r3].
  destruct (PrimFloat.ltb _ _); cbn [snd];
    repeat match goal with
           | |- context [if ?b then _ else _] => destruct b
           end; reflexivity.
Qed.

(** X11. The complexity score lies between 0 and 7; the strategy is ["swarm"]
    from a score of 3 on and ["sequential"] below; the tool count is 8 from
    5 on, 6 for 3 and 4, and 4 below; every reason given accounts for one
    or two points of the score, there are at most four of them, and the
    tight-budget reason is given exactly for a budget under 2000. *)
Theorem complexity_score_and_strategy (request : TravelRequest.t) :
  let c := _analyze_trip_complexity request in
  0 <= complexity_score c <= 7
  /\ (strategy c = "swarm" <-> 3 <= complexity_score c)
  /\ (strategy c = "sequential" <-> complexity_score c < 3)
  /\ (tool_count c = 8 <-> 5 <= complexity_score c)
  /\ (tool_count c = 6 <-> 3 <= complexity_score c < 5)
  /\ (tool_count c = 4 <-> complexity_score c < 3)
  /\ Z.of_nat (List.length (reasons c)) <= complexity_score c
     <= 2 * Z.of_nat (List.length (reasons c))
  /\ (List.length (reasons c) <= 4)%nat
  /\ (Tight_budget ∈ reasons c <-> PrimFloat.ltb (TravelRequest.budget request) 2000 = true).
Proof.
  intros c. subst c.
  pose proof (plan_of_score request) as Hplan. cbv zeta in Hplan.
  pose proof (score_is_a_sum request) as Hscore.
  rewrite (reasons_are_collected request).
  set (score := complexity_score (_analyze_trip_complexity request)) in *.
  set (rs := (_ ++ _)%list).
  assert (Hbounds : 0 <= score <= 7
                    /\ Z.of_nat (List.length rs) <= score <= 2 * Z.of_nat (List.length rs)
                    /\ (List.length rs <= 4)%nat
                    /\ (Tight_budget ∈ rs
                        <-> PrimFloat.ltb (TravelRequest.budget request) 2000 = true)).
  { rewrite Hscore. subst rs. clear Hscore Hplan score.
    destruct (factor_cases (TravelRequest.duration_days request) 7 4
                Long_duration Some_duration ltac:(lia)) as [[_ ->] | [[_ ->] | [_ ->]]];
      destruct (factor_cases (TravelRequest.travelers request) 4 2
                  Large_group Some_travelers ltac:(lia)) as [[_ ->] | [[_ ->] | [_ ->]]];
      destruct (factor_cases (Z.of_nat (List.length
                                (default [] (TravelRequest.interests request)))) 3 1
                  Many_interests Some_interests ltac:(lia)) as [[_ ->] | [[_ ->] | [_ ->]]];
      destruct (PrimFloat.ltb (TravelRequest.budget request) 2000);
      cbn [fst snd app List.length];
      (split; [lia | split; [lia | split; [lia |]]]);
      rewrite ?elem_of_cons, ?elem_of_nil;
      (split; [intros; try reflexivity;
               repeat match goal with
                      | H : _ \/ _ |- _ => destruct H
                      end; try discriminate; try contradiction
              | intros; try discriminate; tauto]). }
  destruct Hbounds as (Hrange & Hlen & Hfour & Htight).
  repeat split; try apply Htight; try lia;
    destruct (Z.leb_spec 5 score); destruct (Z.leb_spec 3 score);
    injection Hplan as Hs Ht; rewrite ?Hs, ?Ht;
    intros; try lia; try discriminate; try reflexivity.
Qed.

(** X12. The score, and with it the tool count, never goes down when the trip
    gets longer, the group larger, the interests more numerous or the
    budget tight. *)
Theorem complexity_is_monotone (r1 r2 : TravelRequest.t) :
  TravelRequest.duration_days r1 <= TravelRequest.duration_days r2 ->
  TravelRequest.travelers r1 <= TravelRequest.travelers r2 ->
  (List.length (default [] (TravelRequest.interests r1))
   <= List.length (default [] (TravelRequest.interests r2)))%nat ->
  (PrimFloat.ltb (TravelRequest.budget r1) 2000 = true ->
   PrimFloat.ltb (TravelRequest.budget r2) 2000 = true) ->
  complexity_score (_analyze_trip_complexity r1) <= complexity_score (_analyze_trip_complexity r2)
  /\ tool_count (_analyze_trip_complexity r1) <= tool_count (_analyze_trip_complexity r2).
Proof.
  intros Hd Ht Hi Hb.
  assert (Hscore : complexity_score (_analyze_trip_complexity r1)
                   <= complexity_score (_analyze_trip_complexity r2)).
  { rewrite !score_is_a_sum.
    pose proof (factor_mono _ _ 7 4 Long_duration Some_duration ltac:(lia) Hd).
    pose proof (factor_mono _ _ 4 2 Large_group Some_travelers ltac:(lia) Ht).
    pose proof (factor_mono (Z.of_nat (List.length (default [] (TravelRequest.interests r1))))
                  (Z.of_nat (List.length (default [] (TravelRequest.interests r2))))
                  3 1 Many_interests Some_interests ltac:(lia) ltac:(lia)).
    destruct (PrimFloat.ltb (TravelRequest.budget r1) 2000);
      [rewrite (Hb eq_refl) | destruct (PrimFloat.ltb (TravelRequest.budget r2) 2000)]; lia. }
  split; [exact Hscore |].
  pose proof (plan_of_score r1) as H1. pose proof (plan_of_score r2) as H2.
  cbv zeta in H1, H2.
  destruct (Z.leb_spec 5 (complexity_score (_analyze_trip_complexity r1)));
    destruct (Z.leb_spec 3 (complexity_score (_analyze_trip_complexity r1)));
    destruct (Z.leb_spec 5 (complexity_score (_analyze_trip_complexity r2)));
    destruct (Z.leb_spec 3 (complexity_score (_analyze_trip_complexity r2)));
    injection H1 as _ H1; injection H2 as _ H2; lia.
Qed.

(** A couple's long weekend against a family's fortnight. *)
Lemma complexity_is_monotone_witness :
  let r1 := TravelRequest.mk "Tokyo" 3 3000 2 (Some ["food"]) (Some "mid-range")
              (Some "moderate") in
  let r2 := TravelRequest.mk "Tokyo" 14 1500 5 (Some ["food"; "tech"; "temples"; "nature"])
              (Some "mid-range") (Some "active") in
  complexity_score (_analyze_trip_complexity r1) <= complexity_score (_analyze_trip_complexity r2)
  /\ tool_count (_analyze_trip_complexity r1) <= tool_count (_analyze_trip_complexity r2).
Proof.
  intros r1 r2. apply (complexity_is_monotone r1 r2).
  - vm_compute. discriminate.
  - vm_compute. discriminate.
  - vm_compute. lia.
  - vm_compute. discriminate.
Defined.

End ComplexityFacts.

(** ** Runs of the payment protocol *)

Module ProtocolFacts.
Import AP2 MandateFacts.

#[local] Open Scope list_scope.

Ltac run_all :=
  unfold plan_trip_with_ap2_stream, try_except, _build_cart_mandate,
    _request_payment_authorization, _execute_transaction, py_div, py_title, raise,
    set_balance;
  run_steps.

(** The three ways a run can go, with the object it leaves and the events
    it yields. *)
Lemma run_cases (request : TravelRequest.t) (self : orchestrator) :
  ((TravelRequest.travelers request = 0 \/ TravelRequest.duration_days request = 0
    \/ TravelRequest.hotel_preference request = None)
   /\ exists e,
        plan_trip_with_ap2_stream request self
        = (inl tt, {| mock_wallet_balance := mock_wallet_balance self; execution_logs := [] |},
           [Log "AP2 Protocol"; Log "AP2 Intent Mandate";
            Error ("AP2 orchestration error: " +:+ e)]))
  \/ (exists cart,
        (forall intent t,
            _build_cart_mandate intent request t
            = (inl cart, {| mock_wallet_balance := mock_wallet_balance t;
                            execution_logs := execution_logs t ++ [Log "AP2 Cart Mandate"] |},
               []))
        /\ ((PrimFloat.leb (total cart) (mock_wallet_balance self) = false
             /\ plan_trip_with_ap2_stream request self
                = (inl tt, {| mock_wallet_balance := mock_wallet_balance self;
                              execution_logs := [] |},
                   [Log "AP2 Protocol"; Log "AP2 Intent Mandate"; Log "AP2 Cart Mandate";
                    Log "AP2 Payment Mandate";
                    Error "Payment authorization denied: Insufficient funds"]))
            \/ (PrimFloat.leb (total cart) (mock_wallet_balance self) = true
                /\ plan_trip_with_ap2_stream request self
                   = (inl tt,
                      {| mock_wallet_balance := (mock_wallet_balance self - total cart)%float;
                         execution_logs := [] |},
                      [Log "AP2 Protocol"; Log "AP2 Intent Mandate"; Log "AP2 Cart Mandate";
                       Log "AP2 Payment Mandate"; Log "AP2 Transaction"; Log "AP2 Receipt";
                       Result (total cart) (total cart)
                         (mock_wallet_balance self - total cart)%float])))).
Proof.
  destruct (TravelRequest.travelers request =? 0) eqn:Ht.
  { left. split; [left; now apply Z.eqb_eq |]. exists "float division by zero".
    run_all. rewrite Ht. reflexivity. }
  destruct (TravelRequest.hotel_preference request) as [preference |] eqn:Hp; cycle 1.
  { left. split; [now right; right |]. exists "'NoneType' object has no attribute 'title'".
    run_all. rewrite Ht. run_all. rewrite Hp. reflexivity. }
  destruct (TravelRequest.duration_days request =? 0) eqn:Hd.
  { left. split; [right; left; now apply Z.eqb_eq |]. exists "float division by zero".
    run_all. rewrite Ht. run_all. rewrite Hp. run_all. rewrite Hd. reflexivity. }
  right. eexists. split.
  { intros intent t. run_all. rewrite Ht. run_all. rewrite Hp. run_all. rewrite Hd.
    reflexivity. }
  cbn [total].
  match goal with
  | |- context [PrimFloat.leb ?x ?y = false] => destruct (PrimFloat.leb x y) eqn:Hauth
  end; [right | left]; (split; [reflexivity |]);
    run_all; rewrite Ht; run_all; rewrite Hp; run_all; rewrite Hd; run_all; rewrite Hauth;
    reflexivity.
Qed.

(** X13. Whatever the request and whatever the wallet, a run does not raise: it
    yields log events and then exactly one terminal event, a result or an
    error; log entries left over from an earlier run are not yielded again
    and none is left behind; and only a run that ends in a result changes
    the wallet balance, by the amount it reports as paid. *)
Theorem a_run_ends_in_one_terminal_event (request : TravelRequest.t) (self : orchestrator) :
  (plan_trip_with_ap2_stream request self).1.1 = inl tt
  /\ execution_logs (plan_trip_with_ap2_stream request self).1.2 = []
  /\ (exists logs last,
         events_of request self = logs ++ [last]
         /\ List.filter is_terminal (events_of request self) = [last]
         /\ (2 <= List.length logs <= 6)%nat
         /\ events_of request self
            = events_of request {| mock_wallet_balance := mock_wallet_balance self;
                                   execution_logs := [] |}
         /\ match last with
            | Result total_cost amount_paid wallet_balance =>
                amount_paid = total_cost
                /\ wallet_balance = balance_after request self
                /\ balance_after request self = (mock_wallet_balance self - amount_paid)%float
            | _ => balance_after request self = mock_wallet_balance self
            end).
Proof.
  assert (Hfresh : plan_trip_with_ap2_stream request self
                   = plan_trip_with_ap2_stream request
                       {| mock_wallet_balance := mock_wallet_balance self;
                          execution_logs := [] |}) by reflexivity.
  unfold events_of, balance_after. rewrite <- Hfresh. clear Hfresh.
  destruct (run_cases request self)
    as [[_ [e Hrun]] | (cart & Hcart & [[Hno Hrun] | [Hyes Hrun]])];
    rewrite Hrun; cbn [fst snd execution_logs mock_wallet_balance];
    (split; [reflexivity | split; [reflexivity |]]);
    match goal with
    | |- exists logs last, ?l = _ /\ _ => exists (removelast l), (List.last l (Log ""))
    end; cbn [removelast List.last];
    repeat split; cbn [List.length]; lia.
Qed.


(** A run whose cart can be built goes by the wallet alone. *)
Lemma run_with_cart (request : TravelRequest.t) (intent : IntentMandate) (cart : CartMandate)
    (s s' : orchestrator) (out : list event) (self : orchestrator) :
  _build_cart_mandate intent request s = (inl cart, s', out) ->
  plan_trip_with_ap2_stream request self
  = if PrimFloat.leb (total cart) (mock_wallet_balance self)
    then (inl tt,
          {| mock_wallet_balance := (mock_wallet_balance self - total cart)%float;
             execution_logs := [] |},
          [Log "AP2 Protocol"; Log "AP2 Intent Mandate"; Log "AP2 Cart Mandate";
           Log "AP2 Payment Mandate"; Log "AP2 Transaction"; Log "AP2 Receipt";
           Result (total cart) (total cart) (mock_wallet_balance self - total cart)%float])
    else (inl tt,
          {| mock_wallet_balance := mock_wallet_balance self; execution_logs := [] |},
          [Log "AP2 Protocol"; Log "AP2 Intent Mandate"; Log "AP2 Cart Mandate";
           Log "AP2 Payment Mandate";
           Error "Payment authorization denied: Insufficient funds"]).
Proof.
  intros Hcart.
  destruct (build_cart_inv _ _ _ _ _ _ Hcart) as (Ht & Hd & Hp & Hbuild).
  destruct (run_cases request self)
    as [[Hzero _] | (cart' & Hcart' & Hrun)]; [intuition lia |].
  specialize (Hbuild intent s). rewrite (Hcart' intent s) in Hbuild.
  injection Hbuild as ->.
  destruct Hrun as [[-> ->] | [-> ->]]; reflexivity.
Qed.

(** X14. When the cart total is within the wallet balance the run goes through
    all four steps: six log events, then one result event that reports the
    cart total as the trip cost and as the amount paid, together with the
    new wallet balance, which is the old one less the cart total. *)
Theorem authorized_run_debits_the_wallet (self : orchestrator) (request : TravelRequest.t)
    (intent : IntentMandate) (cart : CartMandate) (s s' : orchestrator) (out : list event) :
  _build_cart_mandate intent request s = (inl cart, s', out) ->
  PrimFloat.leb (total cart) (mock_wallet_balance self) = true ->
  events_of request self
    = [Log "AP2 Protocol"; Log "AP2 Intent Mandate"; Log "AP2 Cart Mandate";
       Log "AP2 Payment Mandate"; Log "AP2 Transaction"; Log "AP2 Receipt";
       Result (total cart) (total cart) (mock_wallet_balance self - total cart)%float]
  /\ balance_after request self = (mock_wallet_balance self - total cart)%float
  /\ (forall message, Error message ∉ events_of request self).
Proof.
  intros Hcart Hauth. unfold events_of, balance_after.
  rewrite (run_with_cart _ _ _ _ _ _ self Hcart), Hauth.
  cbn [fst snd mock_wallet_balance]. repeat split.
  intros message Hin. rewrite !elem_of_cons, elem_of_nil in Hin.
  intuition discriminate.
Qed.

(** A trip of 3000 against a wallet of 10000: the cart comes to 2779. *)
Lemma authorized_run_debits_the_wallet_witness :
  let self := {| mock_wallet_balance := 10000; execution_logs := [] |} in
  let request := tokyo_request 3000 2 in
  events_of request self
    = [Log "AP2 Protocol"; Log "AP2 Intent Mandate"; Log "AP2 Cart Mandate";
       Log "AP2 Payment Mandate"; Log "AP2 Transaction"; Log "AP2 Receipt";
       Result 2779 2779 7221]
  /\ balance_after request self = 7221%float
  /\ (forall message, Error message ∉ events_of request self).
Proof.
  intros self request.
  eassert (Hcart : _build_cart_mandate {| items_to_purchase := 3; estimated_total := 3000 |}
                     request self = (inl _, _, _)) by (vm_compute; reflexivity).
  exact (authorized_run_debits_the_wallet self request _ _ _ _ _ Hcart eq_refl).
Defined.

(** X15. The wallet is kept from one run to the next: after an authorized run
    the next request is checked against what is left, so that it is paid
    from the remainder or denied with the remainder untouched. *)
Theorem wallet_is_debited_across_runs (self : orchestrator) (first second : TravelRequest.t)
    (intent1 intent2 : IntentMandate) (cart1 cart2 : CartMandate)
    (s1 s1' s2 s2' : orchestrator) (out1 out2 : list event) :
  _build_cart_mandate intent1 first s1 = (inl cart1, s1', out1) ->
  _build_cart_mandate intent2 second s2 = (inl cart2, s2', out2) ->
  PrimFloat.leb (total cart1) (mock_wallet_balance self) = true ->
  let self' := (plan_trip_with_ap2_stream first self).1.2 in
  let left_over := (mock_wallet_balance self - total cart1)%float in
  mock_wallet_balance self' = left_over
  /\ (PrimFloat.leb (total cart2) left_over = true ->
      List.filter is_terminal (events_of second self')
      = [Result (total cart2) (total cart2) (left_over - total cart2)%float]
      /\ balance_after second self' = (left_over - total cart2)%float)
  /\ (PrimFloat.leb (total cart2) left_over = false ->
      List.filter is_terminal (events_of second self')
      = [Error "Payment authorization denied: Insufficient funds"]
      /\ balance_after second self' = left_over).
Proof.
  intros Hcart1 Hcart2 Hauth self' left_over. subst self' left_over.
  unfold events_of, balance_after.
  rewrite (run_with_cart _ _ _ _ _ _ self Hcart1), Hauth.
  cbn [fst snd mock_wallet_balance]. split; [reflexivity |].
  rewrite (run_with_cart _ _ _ _ _ _ _ Hcart2). cbn [mock_wallet_balance].
  split; intros ->; split; reflexivity.
Qed.

(** Two trips of 3000 are paid from a wallet of 5000 as far as it goes:
    the first leaves 2221, which does not cover the second cart of 2779. *)
Lemma wallet_is_debited_across_runs_witness :
  let self := {| mock_wallet_balance := 5000; execution_logs := [] |} in
  let request := tokyo_request 3000 2 in
  let self' := (plan_trip_with_ap2_stream request self).1.2 in
  mock_wallet_balance self' = 2221%float
  /\ List.filter is_terminal (events_of request self')
     = [Error "Payment authorization denied: Insufficient funds"]
  /\ balance_after request self' = 2221%float.
Proof.
  intros self request.
  eassert (Hcart : _build_cart_mandate {| items_to_purchase := 3; estimated_total := 3000 |}
                     request self = (inl _, _, _)) by (vm_compute; reflexivity).
  destruct (wallet_is_debited_across_runs self request request _ _ _ _ _ _ _ _ _ _
              Hcart Hcart eq_refl) as (Hleft & _ & Hdenied).
  split; [exact Hleft | exact (Hdenied eq_refl)].
Defined.

(** X16. The handler of unexpected errors is reached by every request with
    no traveler, no day or no hotel preference, while the cart is built: on
    the division that prices one seat or one night, or on the title-casing
    of the preference. The stream then stops after the intent step, with
    the wallet untouched. For a request within the bounds of the request
    model the handler is reached exactly when the hotel preference is
    [None]. *)
Theorem orchestration_error_on_an_unbuildable_cart (request : TravelRequest.t)
    (self : orchestrator) :
  (TravelRequest.travelers request = 0 \/ TravelRequest.duration_days request = 0
   \/ TravelRequest.hotel_preference request = None ->
   (exists e, events_of request self
              = [Log "AP2 Protocol"; Log "AP2 Intent Mandate";
                 Error ("AP2 orchestration error: " +:+ e)])
   /\ balance_after request self = mock_wallet_balance self)
  /\ (TravelRequest.valid request ->
      ((exists e, Error ("AP2 orchestration error: " +:+ e) ∈ events_of request self)
       <-> TravelRequest.hotel_preference request = None)).
Proof.
  unfold events_of, balance_after.
  destruct (run_cases request self)
    as [[Hcause [e Hrun]] | (cart & Hcart & Hrun)].
  - rewrite Hrun. cbn [fst snd mock_wallet_balance]. split.
    + intros _. split; [now exists e | reflexivity].
    + intros (Hdays & _ & Htravelers). split.
      * intros _. destruct Hcause as [Hzero | [Hzero | Hnone]]; [lia | lia | exact Hnone].
      * intros _. exists e. rewrite !elem_of_cons. right. right. now left.
  - destruct (build_cart_inv _ _ _ _ _ _ (Hcart {| items_to_purchase := 3;
                                                    estimated_total := 0 |} self))
      as (Ht & Hd & Hp & _).
    split; [intros [Hzero | [Hzero | Hnone]]; congruence |].
    intros _. split; [| congruence].
    intros [e Hin]. exfalso.
    destruct Hrun as [[_ Hrun] | [_ Hrun]]; rewrite Hrun in Hin;
      cbn [snd] in Hin; rewrite !elem_of_cons, elem_of_nil in Hin;
      intuition discriminate.
Qed.

(** A valid request that carries no hotel preference. *)
Lemma orchestration_error_on_an_unbuildable_cart_witness :
  let self := {| mock_wallet_balance := 10000; execution_logs := [] |} in
  let request := TravelRequest.mk "Tokyo, Japan" 2 3000 1 None None (Some "moderate") in
  TravelRequest.valid request
  /\ events_of request self
     = [Log "AP2 Protocol"; Log "AP2 Intent Mandate";
        Error "AP2 orchestration error: 'NoneType' object has no attribute 'title'"]
  /\ (exists e, events_of request self
                = [Log "AP2 Protocol"; Log "AP2 Intent Mandate";
                   Error ("AP2 orchestration error: " +:+ e)])
  /\ balance_after request self = 10000%float.
Proof.
  intros self request.
  split; [unfold TravelRequest.valid; cbn; repeat split; lia |].
  split; [reflexivity |].
  apply (proj1 (orchestration_error_on_an_unbuildable_cart request self)).
  right; right. reflexivity.
Defined.

End ProtocolFacts.

(** ** The text of the specialists' answers *)

Module TextFacts.
Import Str StrFacts AgentText.

#[local] Open Scope list_scope.

Lemma without_spaces_app (a b : string) :
  without_spaces (a +:+ b) = without_spaces a +:+ without_spaces b.
Proof.
  induction a as [|c a IH]; [reflexivity |].
  rewrite append_cons. cbn [without_spaces]. destruct (is_space c); [exact IH |].
  now rewrite append_cons, IH.
Qed.

Lemma without_spaces_lstrip (s : string) : without_spaces (lstrip s) = without_spaces s.
Proof.
  induction s as [|c s IH]; [reflexivity |].
  cbn [lstrip without_spaces]. destruct (is_space c) eqn:Hc; [exact IH |].
  cbn [without_spaces]. now rewrite Hc.
Qed.

Lemma without_spaces_rstrip (s : string) : without_spaces (rstrip s) = without_spaces s.
Proof.
  induction s as [|c s IH]; [reflexivity |].
  cbn [rstrip without_spaces]. rewrite <- IH.
  destruct (rstrip s) as [|d r]; destruct (is_space c) eqn:Hc;
    cbn [without_spaces]; rewrite ?Hc; reflexivity.
Qed.

Lemma without_spaces_strip (s : string) : without_spaces (ascii_strip s) = without_spaces s.
Proof. unfold ascii_strip. now rewrite without_spaces_rstrip, without_spaces_lstrip. Qed.

Lemma rstrip_idempotent (s : string) : rstrip (rstrip s) = rstrip s.
Proof.
  induction s as [|c s IH]; [reflexivity |].
  cbn [rstrip]. destruct (rstrip s) as [|d r] eqn:Hr.
  - destruct (is_space c) eqn:Hc; [reflexivity |]. cbn [rstrip]. now rewrite Hc.
  - cbn [rstrip] in IH |- *. rewrite IH. reflexivity.
Qed.

Lemma lstrip_head (s : string) :
  lstrip s = EmptyString \/ exists c t, lstrip s = String c t /\ is_space c = false.
Proof.
  induction s as [|c s IH]; [now left |].
  cbn [lstrip]. destruct (is_space c) eqn:Hc; [exact IH |]. right. now exists c, s.
Qed.

Lemma strip_idempotent (s : string) : ascii_strip (ascii_strip s) = ascii_strip s.
Proof.
  unfold ascii_strip. destruct (lstrip_head s) as [-> | (c & t & -> & Hc)]; [reflexivity |].
  assert (Hl : lstrip (rstrip (String c t)) = rstrip (String c t)).
  { cbn [rstrip]. destruct (rstrip t); rewrite ?Hc; cbn [lstrip]; now rewrite Hc. }
  now rewrite Hl, rstrip_idempotent.
Qed.

(** A text of white space only strips to nothing. *)
Lemma strip_of_spaces (s : string) :
  without_spaces s = EmptyString <-> ascii_strip s = EmptyString.
Proof.
  split.
  - intros Hnone. unfold ascii_strip.
    destruct (lstrip_head s) as [-> | (c & t & Hl & Hc)]; [reflexivity |].
    rewrite <- without_spaces_lstrip, Hl in Hnone. cbn [without_spaces] in Hnone.
    rewrite Hc in Hnone. discriminate.
  - intros Hnone. now rewrite <- without_spaces_strip, Hnone.
Qed.

Lemma glued_app (a b : list string) : glued (a ++ b) = glued a +:+ glued b.
Proof.
  induction a as [|x a IH]; [reflexivity |].
  change (glued ((x :: a) ++ b)) with (x +:+ glued (a ++ b)).
  change (glued (x :: a)) with (x +:+ glued a).
  now rewrite IH, append_assoc_string.
Qed.

Lemma glued_singleton (x : string) : glued [x] = x.
Proof. apply append_nil_r. Qed.

Lemma glued_cons (x : string) (l : list string) : glued (x :: l) = x +:+ glued l.
Proof. reflexivity. Qed.

Lemma without_spaces_stripped (pieces : list string) :
  without_spaces (glued (ascii_strip <$> pieces)) = without_spaces (glued pieces).
Proof.
  induction pieces as [|p l IH]; [reflexivity |].
  rewrite fmap_cons, !glued_cons, !without_spaces_app, IH. now rewrite without_spaces_strip.
Qed.

Lemma append_empty (a b : string) :
  a +:+ b = EmptyString -> a = EmptyString /\ b = EmptyString.
Proof. destruct a; [now split | discriminate]. Qed.

Section Stream.
Context `{Unicode}.

(** What one pass of the loop does: the response text grows by the texts
    read; the pending chunk and the texts read are cut into pieces, each
    logged stripped, and a new pending chunk. *)
Lemma reasoning_loop_pieces (body : list chunk) (response_text current_chunk : string)
    (logged : list string) :
  exists pieces pending,
    reasoning_loop body response_text current_chunk logged
    = (response_text +:+ glued (texts_of body), pending, logged ++ (strip <$> pieces))
    /\ glued pieces +:+ pending = current_chunk +:+ glued (texts_of body)
    /\ Forall (fun piece => strip piece <> EmptyString) pieces
    /\ (List.length pieces <= List.length (List.filter has_punct (texts_of body)))%nat.
Proof.
  revert response_text current_chunk logged.
  induction body as [|[text |] body IH]; intros response_text current_chunk logged.
  - exists [], current_chunk. cbn. rewrite !append_nil_r, app_nil_r. repeat split.
    + constructor.
    + lia.
  - cbn [reasoning_loop].
    change (texts_of (Text_delta text :: body)) with (text :: texts_of body).
    rewrite glued_cons. cbn [List.filter]. rewrite <- !append_assoc_string.
    destruct (has_punct text).
    + destruct (strip (current_chunk +:+ text)) as [|c message] eqn:Hstrip.
      * destruct (IH (response_text +:+ text) (current_chunk +:+ text) logged)
          as (pieces & pending & -> & Hcut & Hpieces & Hlen).
        exists pieces, pending. repeat split; [exact Hcut | exact Hpieces |].
        cbn [List.length]. lia.
      * destruct (IH (response_text +:+ text) EmptyString (logged ++ [String c message]))
          as (pieces & pending & -> & Hcut & Hpieces & Hlen).
        exists ((current_chunk +:+ text) :: pieces), pending.
        rewrite fmap_cons, Hstrip, <- app_assoc. repeat split.
        -- rewrite glued_cons, append_assoc_string, Hcut. reflexivity.
        -- constructor; [| exact Hpieces]. now rewrite Hstrip.
        -- cbn [List.length]. lia.
    + destruct (IH (response_text +:+ text) (current_chunk +:+ text) logged)
        as (pieces & pending & -> & Hcut & Hpieces & Hlen).
      exists pieces, pending. repeat split; [exact Hcut | exact Hpieces | exact Hlen].
  - cbn [reasoning_loop]. change (texts_of (Other_chunk :: body)) with (texts_of body).
    apply IH.
Qed.

Lemma stream_reasoning_pieces (body : list chunk) :
  exists pieces pending,
    stream_reasoning body
    = (glued (texts_of body), (strip <$> pieces) ++ rest_message pending)
    /\ glued pieces +:+ pending = glued (texts_of body)
    /\ Forall (fun piece => strip piece <> EmptyString) pieces
    /\ (List.length pieces <= List.length (List.filter has_punct (texts_of body)))%nat.
Proof.
  unfold stream_reasoning.
  destruct (reasoning_loop_pieces body EmptyString EmptyString [])
    as (pieces & pending & -> & Hcut & Hpieces & Hlen).
  exists pieces, pending. split; [| now split].
  change (EmptyString +:+ ?x) with x. rewrite app_nil_l. unfold rest_message.
  destruct (strip pending); [now rewrite app_nil_r | reflexivity].
Qed.

End Stream.

(** The same with [strip] removing the ASCII white space. *)
Lemma ascii_stream_reasoning (body : list chunk) :
  let messages := (@stream_reasoning ascii_text body).2 in
  Forall (@trimmed ascii_text) messages
  /\ without_spaces (glued messages) = without_spaces (glued (texts_of body))
  /\ (messages = [] <-> without_spaces (glued (texts_of body)) = EmptyString).
Proof.
  destruct (@stream_reasoning_pieces ascii_text body)
    as (pieces & pending & -> & Hcut & Hpieces & _).
  cbn [snd]. change (@strip ascii_text) with ascii_strip in *.
  assert (Hrest : Forall (@trimmed ascii_text) (@rest_message ascii_text pending)
                  /\ without_spaces (glued (@rest_message ascii_text pending))
                     = without_spaces pending
                  /\ (@rest_message ascii_text pending = []
                      <-> without_spaces pending = EmptyString)).
  { unfold rest_message. change (@strip ascii_text pending) with (ascii_strip pending).
    rewrite strip_of_spaces, <- (without_spaces_strip pending).
    destruct (ascii_strip pending) as [|c message] eqn:Hstrip.
    - repeat split; constructor.
    - rewrite glued_singleton. repeat split; try discriminate.
      constructor; [| constructor]. split; [discriminate |].
      change (ascii_strip (String c message) = String c message).
      rewrite <- Hstrip. apply strip_idempotent. }
  destruct Hrest as (Htrimmed & Hkept & Hnone).
  split; [| split].
  - apply Forall_app. split; [| exact Htrimmed].
    apply Forall_fmap. eapply Forall_impl; [exact Hpieces |].
    intros piece Hpiece. split; [exact Hpiece | apply strip_idempotent].
  - rewrite glued_app, without_spaces_app, without_spaces_stripped, Hkept.
    now rewrite <- without_spaces_app, Hcut.
  - rewrite <- Hcut, without_spaces_app. split.
    + intros Hnil. apply app_eq_nil in Hnil as [Hp Hr].
      apply fmap_nil_inv in Hp as ->. now apply Hnone.
    + intros Hempty. apply append_empty in Hempty as [Hp Hr].
      apply Hnone in Hr as ->. rewrite app_nil_r.
      destruct Hpieces as [|piece rest Hpiece _]; [reflexivity |]. exfalso.
      rewrite glued_cons, without_spaces_app in Hp. apply append_empty in Hp as [Hp _].
      now apply strip_of_spaces in Hp.
Qed.

Section Messages.
Context `{Unicode}.

(** X17. However the model's answer is cut into chunks, the text kept for
    the parsers is the texts of all chunks end to end. The answer is cut
    into consecutive pieces and a rest; the reasoning messages streamed
    meanwhile are the pieces, stripped, in order, each non-empty, followed
    by the stripped rest when it is non-empty; there is at most one message
    per chunk with a sentence end, and one for the rest. When the white
    space stripped is the ASCII white space, the messages have no white
    space around them and, put end to end, they hold the characters of the
    answer other than white space, none lost, none repeated, in order. *)
Theorem streamed_reasoning_loses_nothing (body : list chunk) :
  (stream_reasoning body).1 = glued (texts_of body)
  /\ (exists pieces pending,
         glued pieces +:+ pending = glued (texts_of body)
         /\ Forall (fun piece => strip piece <> EmptyString) pieces
         /\ (stream_reasoning body).2
            = (strip <$> pieces)
              ++ match strip pending with EmptyString => [] | message => [message] end
         /\ (List.length pieces <= List.length (List.filter has_punct (texts_of body)))%nat)
  /\ (List.length (stream_reasoning body).2
      <= S (List.length (List.filter has_punct (texts_of body))))%nat
  /\ (let messages := (@stream_reasoning ascii_text body).2 in
      (@stream_reasoning ascii_text body).1 = glued (texts_of body)
      /\ Forall (@trimmed ascii_text) messages
      /\ without_spaces (glued messages) = without_spaces (glued (texts_of body))
      /\ (List.length messages <= S (List.length (List.filter has_punct (texts_of body))))%nat
      /\ (messages = [] <-> without_spaces (glued (texts_of body)) = EmptyString)).
Proof.
  assert (Hcount : forall text : Unicode,
             (List.length (@stream_reasoning text body).2
              <= S (List.length (List.filter has_punct (texts_of body))))%nat).
  { intros text. destruct (@stream_reasoning_pieces text body)
      as (pieces & pending & -> & _ & _ & Hlen).
    cbn [snd]. rewrite length_app, length_fmap. unfold rest_message.
    destruct (strip pending); cbn [List.length]; lia. }
  split; [| split; [| split]].
  - destruct (stream_reasoning_pieces body) as (pieces & pending & -> & _). reflexivity.
  - destruct (stream_reasoning_pieces body) as (pieces & pending & -> & Hcut & Hpieces & Hlen).
    now exists pieces, pending.
  - apply Hcount.
  - intros messages. subst messages.
    destruct (ascii_stream_reasoning body) as (Htrimmed & Hkept & Hnone).
    split; [| split; [exact Htrimmed | split; [exact Hkept | split; [apply Hcount | exact Hnone]]]].
    destruct (@stream_reasoning_pieces ascii_text body) as (pieces & pending & -> & _).
    reflexivity.
Qed.

End Messages.

End TextFacts.

(** ** From a specialist's answer to the selection *)

Module ExtractFacts.
Import Str StrFacts AgentText.

#[local] Open Scope list_scope.

Lemma join_occurs (sep t : string) (parts : list string) :
  t ∈ parts -> occurs t (join sep parts).
Proof.
  induction parts as [|p rest IH]; intros Hin; [now apply elem_of_nil in Hin |].
  apply elem_of_cons in Hin as [-> | Hin].
  - destruct rest as [|q rest].
    + exists EmptyString, EmptyString. cbn [join append]. now rewrite append_nil_r.
    + exists EmptyString, (sep +:+ join sep (q :: rest)). reflexivity.
  - destruct (IH Hin) as (pre & post & Hjoin). destruct rest as [|q rest].
    + now apply elem_of_nil in Hin.
    + exists (p +:+ sep +:+ pre), post.
      change (join sep (p :: q :: rest)) with (p +:+ sep +:+ join sep (q :: rest)).
      now rewrite Hjoin, !append_assoc_string.
Qed.

Lemma join_app (sep : string) (a b : list string) :
  a <> [] -> b <> [] -> join sep (a ++ b) = join sep a +:+ sep +:+ join sep b.
Proof.
  intros Ha Hb. induction a as [|p a IH]; [congruence |].
  destruct a as [|q a].
  - destruct b as [|r b]; [congruence | reflexivity].
  - change (join sep ((p :: q :: a) ++ b)) with (p +:+ sep +:+ join sep ((q :: a) ++ b)).
    rewrite IH by discriminate.
    change (join sep (p :: q :: a)) with (p +:+ sep +:+ join sep (q :: a)).
    now rewrite !append_assoc_string.
Qed.

(** The texts of the dictionary entries, as [_extract_response_text]
    collects them. *)
Lemma texts_of_entries (items : list item) (t : string) :
  t ∈ omap (fun it => match it with
                      | Dict text => Some (default EmptyString text)
                      | Not_a_dict => None
                      end) items
  <-> exists text, Dict text ∈ items /\ t = default EmptyString text.
Proof.
  rewrite list_elem_of_omap. split.
  - intros ([text |] & Hin & Heq); [| discriminate].
    injection Heq as <-. now exists text.
  - intros (text & Hin & ->). now exists (Dict text).
Qed.

(** X18. The text extracted from a specialist's answer is the texts of the
    dictionary entries of its content, in order, with one space between
    two: a missing ['text'] counts as empty and an entry that is not a
    dictionary is skipped. The text of every dictionary entry occurs in
    it, so a name that occurs in one entry occurs in the extracted text;
    one entry alone gives its text unchanged; without content, or without
    a dictionary entry in it, the text is empty. *)
Theorem extracted_text_keeps_every_mention (items : list item) :
  (forall name t, Dict (Some t) ∈ items -> occurs name t ->
     occurs name (_extract_response_text (Some items)))
  /\ ((forall text, Dict text ∉ items) -> _extract_response_text (Some items) = EmptyString)
  /\ _extract_response_text None = EmptyString
  /\ (forall t, _extract_response_text (Some [Dict (Some t)]) = t)
  /\ _extract_response_text (Some [Dict None]) = EmptyString
  /\ _extract_response_text (Some (Not_a_dict :: items)) = _extract_response_text (Some items)
  /\ (forall more,
        (exists text, Dict text ∈ items) -> (exists text, Dict text ∈ more) ->
        _extract_response_text (Some (items ++ more))
        = _extract_response_text (Some items) +:+ " "
          +:+ _extract_response_text (Some more)).
Proof.
  split; [| split; [| split; [reflexivity | split; [reflexivity | split;
    [reflexivity | split; [reflexivity |]]]]]].
  - intros name t Hin Hname. apply (occurs_trans name t); [exact Hname |].
    unfold _extract_response_text. apply join_occurs.
    apply texts_of_entries. now exists (Some t).
  - intros Hnone. unfold _extract_response_text.
    replace (omap _ items) with (@nil string); [reflexivity |].
    symmetry. induction items as [|[text |] items IH]; [reflexivity | |].
    + exfalso. apply (Hnone text). apply list_elem_of_here.
    + cbn [omap list_omap]. apply IH.
      intros text Hin. apply (Hnone text). now apply list_elem_of_further.
  - intros more [text Hin] [text' Hin']. unfold _extract_response_text.
    rewrite omap_app. apply join_app.
    + intros Hnil.
      assert (Ht : default EmptyString text
                   ∈ omap (fun it => match it with
                                     | Dict text => Some (default EmptyString text)
                                     | Not_a_dict => None
                                     end) items)
        by (apply texts_of_entries; now exists text).
      rewrite Hnil in Ht. now apply elem_of_nil in Ht.
    + intros Hnil.
      assert (Ht : default EmptyString text'
                   ∈ omap (fun it => match it with
                                     | Dict text => Some (default EmptyString text)
                                     | Not_a_dict => None
                                     end) more)
        by (apply texts_of_entries; now exists text').
      rewrite Hnil in Ht. now apply elem_of_nil in Ht.
Qed.

End ExtractFacts.

(** ** Hotels of a cached snapshot *)

Module SnapshotFacts.
Import hybrid_data StrFacts CatalogFacts.

#[local] Open Scope list_scope.

(** The five prices of the estimate. *)
Lemma estimate_cases (chain_code : string) (preference : option string) :
  _estimate_hotel_price chain_code preference
  = (if bool_decide (chain_code ∈ premium_chains)
     then if Str.equals preference "luxury" then 300
          else if Str.equals preference "budget" then 120 else 150
     else if Str.equals preference "luxury" then 250
          else if Str.equals preference "budget" then 80 else 120)%float.
Proof.
  unfold _estimate_hotel_price.
  destruct (bool_decide _), (Str.equals preference "luxury"), (Str.equals preference "budget");
    reflexivity.
Qed.

(** X19. The nightly price estimated for a cached hotel goes by the tier asked
    and by the chain: for one chain, ['budget'] is the cheapest tier and
    ['luxury'] the dearest; in one tier, a premium chain is never cheaper
    than another chain; and any ['luxury'] estimate is above any estimate
    of another tier. The estimate is between 80 and 300. *)
Theorem hotel_price_estimate_by_tier (chain_code other_chain : string)
    (preference other : option string) :
  PrimFloat.leb 80 (_estimate_hotel_price chain_code preference) = true
  /\ PrimFloat.leb (_estimate_hotel_price chain_code preference) 300 = true
  /\ PrimFloat.leb (_estimate_hotel_price chain_code (Some "budget"))
       (_estimate_hotel_price chain_code preference) = true
  /\ PrimFloat.leb (_estimate_hotel_price chain_code preference)
       (_estimate_hotel_price chain_code (Some "luxury")) = true
  /\ (chain_code ∈ premium_chains ->
      PrimFloat.leb (_estimate_hotel_price other_chain preference)
        (_estimate_hotel_price chain_code preference) = true)
  /\ (other <> Some "luxury" ->
      PrimFloat.ltb (_estimate_hotel_price other_chain other)
        (_estimate_hotel_price chain_code (Some "luxury")) = true).
Proof.
  rewrite !estimate_cases.
  change (Str.equals (Some "budget") "luxury") with false.
  change (Str.equals (Some "budget") "budget") with true.
  change (Str.equals (Some "luxury") "luxury") with true.
  repeat split.
  1-4: destruct (bool_decide (chain_code ∈ premium_chains)),
         (Str.equals preference "luxury"), (Str.equals preference "budget");
       vm_compute; reflexivity.
  - intros Hpremium. rewrite (bool_decide_eq_true_2 _ Hpremium).
    destruct (bool_decide (other_chain ∈ premium_chains)),
      (Str.equals preference "luxury"), (Str.equals preference "budget");
      vm_compute; reflexivity.
  - intros Hother.
    assert (Hno : Str.equals other "luxury" = false).
    { destruct (Str.equals other "luxury") eqn:Heq; [| reflexivity].
      now apply equals_true in Heq. }
    rewrite Hno.
    destruct (bool_decide (chain_code ∈ premium_chains)),
      (bool_decide (other_chain ∈ premium_chains)), (Str.equals other "budget");
      vm_compute; reflexivity.
Qed.

Lemma sorted_length {A : Type} (key : A -> float) (reverse : bool) (l : list A) :
  List.length (sorted key reverse l) = List.length l.
Proof. apply Permutation_length, sorted_perm. Qed.

Section Lookups.
Context `{Str.Unicode}.

(** X20. When the snapshot has hotels for the city, the lookup answers from
    them alone: every hotel returned is a cached hotel with the price
    estimated for its chain and the tier asked, the rating 4.0 and the
    amenities of the tier. ['budget'] and ['luxury'] give up to three
    hotels; any other preference skips the two cheapest and gives up to
    three of the rest, so that a snapshot with one or two hotels for the
    city gives no hotel at all, the static catalog not being consulted. *)
Theorem cached_hotels_are_priced_by_tier (cached_data : cached_data_t)
    (destination : string) (nights : Z) (preference : option string) (city : CachedCity.t) :
  cached_city cached_data (mock_data.dest_key destination) = Some city ->
  CachedCity.hotels city <> [] ->
  (forall hotel, hotel ∈ get_hotels cached_data destination nights preference ->
     (exists cached, cached ∈ CachedCity.hotels city
                     /\ HotelOption.name hotel = CachedHotel.name cached
                     /\ HotelOption.location hotel
                        = default destination (CachedHotel.location cached)
                     /\ HotelOption.price_per_night hotel
                        = _estimate_hotel_price (CachedHotel.chain_code cached) preference)
     /\ HotelOption.rating hotel = 4.0%float
     /\ HotelOption.amenities hotel = _get_amenities_for_tier preference)
  /\ List.length (get_hotels cached_data destination nights preference)
     = (if Str.equals preference "budget" || Str.equals preference "luxury"
        then Nat.min 3 (List.length (CachedCity.hotels city))
        else Nat.min 3 (List.length (CachedCity.hotels city) - 2))
  /\ (preference <> Some "budget" -> preference <> Some "luxury" ->
      (List.length (CachedCity.hotels city) <= 2)%nat ->
      get_hotels cached_data destination nights preference = []).
Proof.
  intros Hcity Hhotels. unfold get_hotels. rewrite Hcity. cbn [fmap option_fmap option_map].
  destruct (CachedCity.hotels city) as [|c cs] eqn:Hcached; [contradiction |].
  set (convert := fun hotel : CachedHotel.t => HotelOption.mk _ _ _ _ _ _).
  assert (Hslice : forall (r : bool) (j k : nat) hotel,
             hotel ∈ take k (drop j (sorted HotelOption.price_per_night r (convert <$> c :: cs))) ->
             exists cached, cached ∈ c :: cs /\ hotel = convert cached).
  { intros r j k hotel Hin. apply LookupFacts.sorted_slice_elem in Hin.
    apply list_elem_of_fmap in Hin as (cached & -> & Hin). now exists cached. }
  assert (Hlen : forall (r : bool) (j k : nat),
             List.length (take k (drop j (sorted HotelOption.price_per_night r
                                            (convert <$> c :: cs))))
             = Nat.min k (List.length (c :: cs) - j)).
  { intros r j k. now rewrite length_take, length_drop, sorted_length, length_fmap. }
  split; [| split].
  - intros hotel Hin.
    assert (Hfrom : exists cached, cached ∈ c :: cs /\ hotel = convert cached).
    { destruct (Str.equals preference "budget"); [apply (Hslice false 0%nat 3%nat), Hin |].
      destruct (Str.equals preference "luxury"); [apply (Hslice true 0%nat 3%nat), Hin |].
      apply (Hslice false 2%nat 3%nat), Hin. }
    destruct Hfrom as (cached & Hcached' & ->).
    split; [exists cached |]; repeat split. exact Hcached'.
  - destruct (Str.equals preference "budget"); [rewrite <- Nat.sub_0_r; apply (Hlen false 0%nat) |].
    destruct (Str.equals preference "luxury"); [rewrite <- Nat.sub_0_r; apply (Hlen true 0%nat) |].
    apply Hlen.
  - intros Hb Hl Hfew. destruct (other_preference preference Hb Hl) as [-> ->].
    apply length_zero_iff_nil. rewrite Hlen. lia.
Qed.

End Lookups.

#[local] Existing Instance Str.ascii_text.

(** A snapshot with two hotels for Paris, asked for a mid-range hotel. *)
Lemma cached_hotels_are_priced_by_tier_witness :
  let paris := CachedCity.mk []
                 [CachedHotel.mk "Hotel Lumiere" None "HY";
                  CachedHotel.mk "Le Petit Jardin" (Some "Montmartre") "XX"] [] in
  let cached_data := Some (<["paris" := paris]> ∅) in
  List.length (get_hotels cached_data "Paris, France" 3 (Some "mid-range")) = 0%nat
  /\ get_hotels cached_data "Paris, France" 3 (Some "mid-range") = [].
Proof.
  intros paris cached_data.
  destruct (cached_hotels_are_priced_by_tier cached_data "Paris, France" 3 (Some "mid-range") paris)
    as (_ & Hlen & Hnone).
  - reflexivity.
  - discriminate.
  - split; [exact Hlen | apply Hnone; [discriminate | discriminate | simpl; lia]].
Defined.

End SnapshotFacts.

(** ** The activity tool of the tool-based planner *)

Module ToolFacts.
Import mock_data Strands StrFacts CatalogFacts ActivityLookupFacts.

#[local] Open Scope list_scope.

Lemma split_not_nil (sep : ascii) (s : string) : split sep s <> [].
Proof.
  destruct s as [|c s]; [discriminate |]. cbn [split].
  destruct (Ascii.eqb c sep); [discriminate |]. destruct (split sep s); discriminate.
Qed.

(** A text is its parts with a comma between two. *)
Lemma join_split (s : string) : join "," (split "," s) = s.
Proof.
  induction s as [|c s IH]; [reflexivity |].
  cbn [split]. pose proof (split_not_nil "," s) as Hne.
  destruct (Ascii.eqb_spec c ",") as [-> | Hc].
  - destruct (split "," s) as [|first others]; [contradiction |].
    change (join "," (EmptyString :: first :: others))
      with ("," +:+ join "," (first :: others)).
    now rewrite IH.
  - destruct (split "," s) as [|first [|second others]]; [contradiction | |].
    + cbn [join] in IH |- *. now rewrite IH.
    + change (join "," (String c first :: second :: others))
        with (String c (join "," (first :: second :: others))).
      now rewrite IH.
Qed.

Lemma split_no_comma (s : string) : Forall (fun part => ~ Str.occurs "," part) (split "," s).
Proof.
  induction s as [|c s IH]; [constructor; [apply no_comma_nil | constructor] |].
  cbn [split]. destruct (Ascii.eqb_spec c ",") as [-> | Hc].
  - constructor; [apply no_comma_nil | exact IH].
  - pose proof (split_not_nil "," s) as Hne.
    destruct (split "," s) as [|first others]; [contradiction |].
    apply Forall_cons in IH as [Hfirst Hothers].
    constructor; [now apply no_comma_cons | exact Hothers].
Qed.

Lemma split_part (part : string) : ~ Str.occurs "," part -> split "," part = [part].
Proof.
  induction part as [|c part IH]; [reflexivity |].
  intros Hno. apply no_comma_cons in Hno as [Hc Hno].
  cbn [split]. apply Ascii.eqb_neq in Hc. now rewrite Hc, IH.
Qed.

Lemma split_first (part rest : string) :
  ~ Str.occurs "," part -> split "," (part +:+ "," +:+ rest) = part :: split "," rest.
Proof.
  induction part as [|c part IH]; [reflexivity |].
  intros Hno. apply no_comma_cons in Hno as [Hc Hno].
  rewrite append_cons. cbn [split]. apply Ascii.eqb_neq in Hc. now rewrite Hc, IH.
Qed.

(** Parts without a comma are found again. *)
Lemma split_join (parts : list string) :
  parts <> [] -> Forall (fun part => ~ Str.occurs "," part) parts ->
  split "," (join "," parts) = parts.
Proof.
  intros Hne Hparts. induction Hparts as [|part rest Hpart Hrest IH]; [congruence |].
  destruct rest as [|second rest]; [now apply split_part |].
  change (join "," (part :: second :: rest)) with (part +:+ "," +:+ join "," (second :: rest)).
  rewrite split_first by exact Hpart. now rewrite IH.
Qed.

Section Tool.
Context `{Str.Unicode}.

(** X21. The activity tool takes its interests as one text and cuts it at
    the commas: a text is its parts with a comma between two, and for
    parts written with a comma between two the tool looks up the parts,
    each stripped of surrounding white space, in their order. When the
    snapshot has activities for the city it returns the first ten of
    them, whatever the interests; otherwise it returns the first ten of
    the activities filed in the destination's table under the parts,
    stripped and in lower case, at most two per part and in the order of
    the parts. It never returns more than ten. *)
Theorem activity_tool_reads_a_comma_list (cached_data : hybrid_data.cached_data_t)
    (destination : string) :
  let db := get_or_tokyo MOCK_ACTIVITIES (dest_key destination) in
  (forall interests,
      exists raw_parts,
        raw_parts <> [] /\ Forall (fun part => ~ Str.occurs "," part) raw_parts
        /\ interests = join "," raw_parts)
  /\ (forall raw_parts,
        raw_parts <> [] -> Forall (fun part => ~ Str.occurs "," part) raw_parts ->
        search_activities cached_data destination (join "," raw_parts)
        = hybrid_data.get_activities cached_data destination (Str.strip <$> raw_parts) 10
        /\ (forall city first others,
              hybrid_data.cached_city cached_data (dest_key destination) = Some city ->
              hybrid_data.CachedCity.activities city = first :: others ->
              search_activities cached_data destination (join "," raw_parts)
              = take 10 (first :: others))
        /\ ((forall city,
                hybrid_data.cached_city cached_data (dest_key destination) = Some city ->
                hybrid_data.CachedCity.activities city = []) ->
            search_activities cached_data destination (join "," raw_parts)
            = take 10 (mjoin ((fun part =>
                                 take 2 (default [] (db !! Str.lower (Str.strip part))))
                                <$> raw_parts))))
  /\ (forall interests,
        (List.length (search_activities cached_data destination interests) <= 10)%nat).
Proof.
  intros db. split; [| split].
  - intros interests. exists (split "," interests).
    split; [apply split_not_nil | split; [apply split_no_comma |]].
    symmetry. apply join_split.
  - intros raw_parts Hne Hparts. unfold search_activities.
    rewrite (split_join raw_parts Hne Hparts).
    split; [reflexivity | split].
    + intros city first others Hcity Hactivities. unfold hybrid_data.get_activities.
      rewrite Hcity. cbn [fmap option_fmap option_map]. now rewrite Hactivities.
    + intros Hnone. unfold hybrid_data.get_activities.
      assert (Hstatic : forall cached : option (list ActivityOption.t),
                 cached = hybrid_data.CachedCity.activities
                            <$> hybrid_data.cached_city cached_data (dest_key destination) ->
                 match cached with
                 | Some ((_ :: _) as real_activities) => slice_to 10 real_activities
                 | _ => get_activities destination (Str.strip <$> raw_parts) 10
                 end
                 = get_activities destination (Str.strip <$> raw_parts) 10).
      { intros [[|a l] |] Hcached; try reflexivity. exfalso.
        destruct (hybrid_data.cached_city cached_data (dest_key destination)) as [city |];
          [| discriminate].
        cbn [fmap option_fmap option_map] in Hcached. injection Hcached as Hcached.
        rewrite (Hnone city eq_refl) in Hcached. discriminate. }
      rewrite (Hstatic _ eq_refl). unfold get_activities. fold db.
      rewrite collect_two_per_interest, app_nil_l, <- list_fmap_compose. reflexivity.
  - intros interests. unfold search_activities, hybrid_data.get_activities.
    destruct (hybrid_data.CachedCity.activities <$> _) as [[|a l] |];
      change 10%nat with (Z.to_nat 10); apply slice_to_length; lia.
Qed.

End Tool.

#[local] Existing Instance Str.ascii_text.

(** Food and technology in Tokyo, without a snapshot: two activities for
    each, in the order asked. *)
Lemma activity_tool_reads_a_comma_list_witness :
  ActivityOption.name <$> search_activities None "Tokyo, Japan" "Food, tech"
  = ["Tsukiji Outer Market Food Tour"; "Ramen Making Class";
     "Akihabara Tech District Tour"; "TeamLab Borderless Digital Art Museum"].
Proof.
  destruct (activity_tool_reads_a_comma_list None "Tokyo, Japan") as (_ & Hparts & _).
  destruct (Hparts ["Food"; " tech"]) as (_ & _ & Hstatic).
  - discriminate.
  - change ["Food"; " tech"] with (split "," "Food, tech"). apply split_no_comma.
  - change "Food, tech" with (join "," ["Food"; " tech"]).
    rewrite Hstatic by discriminate. reflexivity.
Defined.

End ToolFacts.
